(** * securequery-analytics: the policy-enforcing query gateway

    A shallow embedding of the access manager ([src/access/auth.py]), the
    encryption manager ([src/security/encryption.py]) and the query engine
    ([src/engine/query_engine.py]), with the properties the specification
    states about them. *)

From Stdlib Require Import List String Ascii ZArith Bool Arith Lia DecimalString.
Import ListNotations.
Open Scope string_scope.
Set Warnings "-register-all".

(** ** The fragment of the Python runtime the sources rely on *)

Module Py.

(** Values that travel through result rows and through [mask_value]:
    [None], [str], [int] and [bool]. *)
Inductive value : Type :=
| VNone
| VStr (s : string)
| VInt (z : Z)
| VBool (b : bool).

Definition str_of_Z (z : Z) : string := NilZero.string_of_int (Z.to_int z).

(** [str(v)] *)
Definition str (v : value) : string :=
  match v with
  | VNone => "None"
  | VStr s => s
  | VInt z => str_of_Z z
  | VBool true => "True"
  | VBool false => "False"
  end.

(** [v == s] for a string literal [s] *)
Definition eq_str (v : value) (s : string) : bool :=
  match v with
  | VStr s' => String.eqb s' s
  | _ => false
  end.

(** [s * n] *)
Fixpoint str_mul (s : string) (n : nat) : string :=
  match n with
  | O => EmptyString
  | S k => s ++ str_mul s k
  end.

(** [s[k:]] for [0 <= k] *)
Fixpoint str_drop (k : nat) (s : string) : string :=
  match k, s with
  | O, _ => s
  | S _, EmptyString => EmptyString
  | S k', String _ s' => str_drop k' s'
  end.

(** [s[-n:]] for [0 < n]: a start before the beginning is clipped to 0 *)
Definition str_last (n : nat) (s : string) : string :=
  str_drop (String.length s - n) s.

(** [c in s] for a character [c] *)
Fixpoint char_in (c : ascii) (s : string) : bool :=
  match s with
  | EmptyString => false
  | String a s' => Ascii.eqb a c || char_in c s'
  end.

(** Exceptions, and computations that may raise one. *)
Inductive exn : Type :=
| IndexError (msg : string)
| AttributeError (msg : string)
| KeyError (key : string)
| TypeError (msg : string)
| ValueError (msg : string)
| UnicodeDecodeError (msg : string)
| InvalidToken
| DatabaseError (msg : string).

(** [str(e)] *)
Definition exn_str (e : exn) : string :=
  match e with
  | IndexError m | AttributeError m | TypeError m | ValueError m
  | UnicodeDecodeError m | DatabaseError m => m
  | KeyError k => "'" ++ k ++ "'"
  | InvalidToken => EmptyString
  end.

Inductive result (A : Type) : Type :=
| Ok (a : A)
| Raise (e : exn).
Arguments Ok {A} a.
Arguments Raise {A} e.

Definition bind {A B} (m : result A) (k : A -> result B) : result B :=
  match m with
  | Ok a => k a
  | Raise e => Raise e
  end.

End Py.

Import Py.

Notation "x <- m ;; k" := (Py.bind m (fun x => k))
  (at level 61, m at next level, right associativity).

(** ** [EncryptionManager.mask_value] *)

Definition mask_value (value : Py.value) (mask_type : Py.value) : Py.value :=
  match value with
  | VNone => VNone
  | _ =>
    let value_str := Py.str value in
    if Py.eq_str mask_type "full" then
      VStr (str_mul "*" (String.length value_str))
    else if Py.eq_str mask_type "partial" then
      if Nat.leb (String.length value_str) 4 then
        VStr (str_mul "*" (String.length value_str))
      else
        VStr (str_mul "*" (String.length value_str - 4) ++ str_last 4 value_str)
    else VStr value_str
  end.

(** ** More of [str]: [upper], [strip], ASCII test *)

Module PyStr.

Definition upper_char (c : ascii) : ascii :=
  let n := nat_of_ascii c in
  if Nat.leb 97 n && Nat.leb n 122 then ascii_of_nat (n - 32) else c.

(** [s.upper()], on the ASCII letters *)
Fixpoint upper (s : string) : string :=
  match s with
  | EmptyString => EmptyString
  | String c s' => String (upper_char c) (upper s')
  end.

(** the characters [str.strip()] removes *)
Definition is_space (c : ascii) : bool :=
  let n := nat_of_ascii c in
  (Nat.leb 9 n && Nat.leb n 13) || (Nat.leb 28 n && Nat.leb n 32)
  || Nat.eqb n 133 || Nat.eqb n 160.

Fixpoint lstrip (s : string) : string :=
  match s with
  | EmptyString => EmptyString
  | String c s' => if is_space c then lstrip s' else s
  end.

Fixpoint rstrip (s : string) : string :=
  match s with
  | EmptyString => EmptyString
  | String c s' =>
    let r := rstrip s' in
    if is_space c && String.eqb r EmptyString then EmptyString
    else String c r
  end.

(** [s.strip()] *)
Definition strip (s : string) : string := rstrip (lstrip s).

(** whether [s.encode('ascii')] succeeds *)
Fixpoint ascii_only (s : string) : bool :=
  match s with
  | EmptyString => true
  | String c s' => Nat.ltb (nat_of_ascii c) 128 && ascii_only s'
  end.

End PyStr.

(** A name as the sources pass it around: a [str], or [None]. *)
Definition pyname := option string.

(** how a name is rendered inside an f-string *)
Definition name_str (n : pyname) : string :=
  match n with
  | Some s => s
  | None => "None"
  end.

Definition pyname_eqb (a b : pyname) : bool :=
  match a, b with
  | Some x, Some y => String.eqb x y
  | None, None => true
  | _, _ => false
  end.

(** truthiness of [if name:] *)
Definition truthy (n : pyname) : bool :=
  match n with
  | Some s => negb (String.eqb s EmptyString)
  | None => false
  end.

(** [traverse]: run [f] over a list, stopping at the first exception *)
Fixpoint map_result {A B} (f : A -> Py.result B) (l : list A)
  : Py.result (list B) :=
  match l with
  | [] => Ok []
  | a :: l' => b <- f a ;; bs <- map_result f l' ;; Ok (b :: bs)
  end.

(** ** The token model of [sqlparse] that [parse_query] observes

    [sqlparse] is a dependency of the repository, not part of it.  A parsed
    statement is a list of tokens.  A leaf token carries a token type (never
    [None]) and its text.  A grouped token ([TokenList] and its subclasses)
    has [ttype is None], the text of the group, its class, the answer of
    [get_real_name()] and its children. *)

Module Sqlparse.

Inductive ttype : Type :=
| Keyword | DML | DDL | Wildcard | Whitespace | Newline | Punctuation
| Name | Number | StringLiteral | Operator | Comparison | Comment | Other.

Definition ttype_eqb (a b : ttype) : bool :=
  match a, b with
  | Keyword, Keyword | DML, DML | DDL, DDL | Wildcard, Wildcard
  | Whitespace, Whitespace | Newline, Newline | Punctuation, Punctuation
  | Name, Name | Number, Number | StringLiteral, StringLiteral
  | Operator, Operator | Comparison, Comparison | Comment, Comment
  | Other, Other => true
  | _, _ => false
  end.

Inductive group_class : Type :=
| Identifier
| IdentifierList
| OtherGroup.

Inductive token : Type :=
| Token (ty : ttype) (value : string)
| Group (cls : group_class) (text : string) (real_name : pyname)
        (tokens : list token).

Definition statement := list token.

(** [token.ttype is ty] *)
Definition ttype_is (t : token) (ty : ttype) : bool :=
  match t with
  | Token ty' _ => ttype_eqb ty' ty
  | Group _ _ _ _ => false
  end.

(** [token.value], which is [str(token)] *)
Definition value (t : token) : string :=
  match t with
  | Token _ v => v
  | Group _ text _ _ => text
  end.

Definition is_whitespace (t : token) : bool :=
  ttype_is t Whitespace || ttype_is t Newline.

(** [IdentifierList.get_identifiers()]: the children that are neither
    whitespace nor a comma *)
Definition get_identifiers (t : token) : list token :=
  match t with
  | Token _ _ => []
  | Group _ _ _ children =>
    filter (fun c =>
              negb (is_whitespace c
                    || (ttype_is c Punctuation && String.eqb (value c) ",")))
           children
  end.

(** [token.get_real_name()]: a method of grouped tokens only *)
Definition get_real_name (t : token) : Py.result pyname :=
  match t with
  | Token _ _ =>
    Raise (AttributeError "'Token' object has no attribute 'get_real_name'")
  | Group _ _ rn _ => Ok rn
  end.

End Sqlparse.

(** ** [QueryEngine.parse_query] *)

Record parsed_query : Type := {
  q_type : option string;
  q_tables : list pyname;
  q_columns : list pyname
}.

Import Sqlparse.

(** the first loop: the statement type is the upper-cased first DML token *)
Fixpoint statement_type (tokens : list token) : option string :=
  match tokens with
  | [] => None
  | token :: rest =>
    if ttype_is token DML then Some (PyStr.upper (value token))
    else statement_type rest
  end.

Definition is_from (token : Sqlparse.token) : bool :=
  ttype_is token Keyword && String.eqb (PyStr.upper (value token)) "FROM".

(** the second loop: tables after the [FROM] keyword, up to the next
    keyword *)
Fixpoint from_tables (from_seen : bool) (tokens : list token)
         (tables : list pyname) : Py.result (list pyname) :=
  match tokens with
  | [] => Ok tables
  | token :: rest =>
    if from_seen then
      match token with
      | Group IdentifierList _ _ _ =>
        names <- map_result get_real_name (get_identifiers token) ;;
        from_tables true rest (tables ++ names)
      | Group Identifier _ _ _ =>
        name <- get_real_name token ;;
        from_tables true rest (tables ++ [name])
      | _ =>
        if ttype_is token Keyword then Ok tables
        else from_tables true rest tables
      end
    else from_tables (is_from token) rest tables
  end.

Definition not_star (col_name : pyname) : bool :=
  negb (pyname_eqb col_name (Some "*")).

(** the third loop: columns between [SELECT] and [FROM] *)
Fixpoint select_columns (select_seen : bool) (tokens : list token)
         (columns : list pyname) : Py.result (list pyname) :=
  match tokens with
  | [] => Ok columns
  | token :: rest =>
    if ttype_is token DML && String.eqb (PyStr.upper (value token)) "SELECT"
    then select_columns true rest columns
    else if select_seen then
      if is_from token then Ok columns
      else
        match token with
        | Group IdentifierList _ _ _ =>
          names <- map_result get_real_name (get_identifiers token) ;;
          select_columns true rest (columns ++ filter not_star names)
        | Group Identifier _ _ _ =>
          col_name <- get_real_name token ;;
          select_columns true rest (columns ++ filter not_star [col_name])
        | Group OtherGroup text _ _ =>
          if String.eqb (PyStr.strip text) "*"
          then select_columns true rest (columns ++ [Some "*"])
          else select_columns true rest columns
        | Token _ _ => select_columns true rest columns
        end
    else select_columns false rest columns
  end.

(** the body of [parse_query] once [sqlparse.parse(sql)[0]] is at hand *)
Definition parse_statement (parsed : statement) : Py.result parsed_query :=
  let stmt_type := statement_type parsed in
  tables <- from_tables false parsed [] ;;
  columns <- (match stmt_type with
              | Some ty =>
                if String.eqb ty "SELECT" then select_columns false parsed []
                else Ok []
              | None => Ok []
              end) ;;
  Ok {| q_type := stmt_type; q_tables := tables; q_columns := columns |}.

(** [sqlparse.parse(sql)[0]] followed by the body *)
Definition parse_query (sqlparse_parse : string -> Py.result (list statement))
           (sql : string) : Py.result parsed_query :=
  stmts <- sqlparse_parse sql ;;
  match stmts with
  | [] => Raise (IndexError "tuple index out of range")
  | parsed :: _ => parse_statement parsed
  end.

(** ** The datastore: the system tables and the catalog

    Length limits of the [VARCHAR] columns are not modelled. *)

Record user_row : Type := {
  user_id : Z;
  username : string;
  role : string
}.

Record access_row : Type := {
  access_id : Z;
  ac_user_id : Z;
  ac_table_name : string;
  ac_column_name : option string;   (* [None] is SQL NULL: a table-wide grant *)
  access_level : string;
  granted_at : Z
}.

Record key_row : Type := {
  mk_table_name : string;
  mk_column_name : string;
  encrypted_key : string
}.

Record column_row : Type := {
  ic_table_name : string;
  ic_column_name : string;
  ic_data_type : string
}.

Record database : Type := {
  system_users : list user_row;
  access_control : list access_row;
  access_id_seq : Z;                      (* next value of the SERIAL *)
  master_keys : list key_row;
  information_schema_tables : list string;
  information_schema_columns : list column_row   (* in ordinal order *)
}.

(** SQL [col = %s]: never true when the parameter is NULL *)
Definition sql_eq (col : string) (param : pyname) : bool :=
  match param with
  | Some p => String.eqb col p
  | None => false
  end.

(** SQL [col = %s] on a nullable column *)
Definition sql_eq_nullable (col : option string) (param : pyname) : bool :=
  match col with
  | Some c => sql_eq c param
  | None => false
  end.

Definition is_null (col : option string) : bool :=
  match col with
  | Some _ => false
  | None => true
  end.

(** [DatabaseManager.table_exists] *)
Definition table_exists (db : database) (table_name : pyname) : bool :=
  existsb (fun t => sql_eq t table_name) (information_schema_tables db).

(** [DatabaseManager.get_table_schema] *)
Definition get_table_schema (db : database) (table_name : pyname)
  : list column_row :=
  filter (fun c => sql_eq (ic_table_name c) table_name)
         (information_schema_columns db).

(** ** [AccessManager] *)

(** [get_user]: the first row of the lookup by username, or [None] *)
Definition get_user (db : database) (name : string) : option user_row :=
  find (fun u => String.eqb (username u) name) (system_users db).

(** the row filter of the column-specific [EXISTS] query *)
Definition column_grant_row (uid : Z) (table_name column_name : pyname)
           (r : access_row) : bool :=
  Z.eqb (ac_user_id r) uid && sql_eq (ac_table_name r) table_name
  && sql_eq_nullable (ac_column_name r) column_name.

(** the row filter of the table-level [EXISTS] query *)
Definition table_grant_row (uid : Z) (table_name : pyname)
           (r : access_row) : bool :=
  Z.eqb (ac_user_id r) uid && sql_eq (ac_table_name r) table_name
  && is_null (ac_column_name r).

Definition check_access (db : database) (name : string)
           (table_name column_name : pyname) : bool :=
  match get_user db name with
  | None => false
  | Some user =>
    if String.eqb (role user) "admin" then true
    else
      let uid := user_id user in
      if truthy column_name
         && existsb (column_grant_row uid table_name column_name)
                    (access_control db)
      then true
      else existsb (table_grant_row uid table_name) (access_control db)
  end.

(** the row filter of [check_query] in [grant_access]:
    [column_name = %s OR (column_name IS NULL AND %s IS NULL)] *)
Definition same_grant_tuple (uid : Z) (table_name : string)
           (column_name : pyname) (r : access_row) : bool :=
  Z.eqb (ac_user_id r) uid && String.eqb (ac_table_name r) table_name
  && (sql_eq_nullable (ac_column_name r) column_name
      || (is_null (ac_column_name r) && is_null column_name)).

(** [UPDATE access_control SET access_level, granted_at WHERE access_id] *)
Definition update_grant (id : Z) (level : string) (now : Z)
           (r : access_row) : access_row :=
  if Z.eqb (access_id r) id then
    {| access_id := access_id r; ac_user_id := ac_user_id r;
       ac_table_name := ac_table_name r; ac_column_name := ac_column_name r;
       access_level := level; granted_at := now |}
  else r.

Definition set_access_control (db : database) (rows : list access_row)
           (seq : Z) : database :=
  {| system_users := system_users db;
     access_control := rows;
     access_id_seq := seq;
     master_keys := master_keys db;
     information_schema_tables := information_schema_tables db;
     information_schema_columns := information_schema_columns db |}.

(** [grant_access]; [now] is the datastore's [CURRENT_TIMESTAMP] *)
Definition grant_access (db : database) (name : string) (table_name : string)
           (column_name : pyname) (level : string) (now : Z)
  : Py.result database :=
  match get_user db name with
  | None => Raise (ValueError ("user '" ++ name ++ "' does not exist"))
  | Some user =>
    let uid := user_id user in
    let existing :=
        filter (same_grant_tuple uid table_name column_name)
               (access_control db) in
    match existing with
    | first :: _ =>
      Ok (set_access_control db
            (map (update_grant (access_id first) level now)
                 (access_control db))
            (access_id_seq db))
    | [] =>
      Ok (set_access_control db
            (access_control db ++
             [{| access_id := access_id_seq db; ac_user_id := uid;
                 ac_table_name := table_name; ac_column_name := column_name;
                 access_level := level; granted_at := now |}])
            (access_id_seq db + 1))
    end
  end.

(** [revoke_access] *)
Definition revoke_access (db : database) (name : string) (table_name : string)
           (column_name : pyname) : Py.result database :=
  match get_user db name with
  | None => Raise (ValueError ("user '" ++ name ++ "' does not exist"))
  | Some user =>
    Ok (set_access_control db
          (filter (fun r => negb (same_grant_tuple (user_id user) table_name
                                                   column_name r))
                  (access_control db))
          (access_id_seq db))
  end.

(** ** The libraries behind [EncryptionManager]

    [cryptography], [base64] and the string codec are dependencies of the
    repository; the encryption manager is stated over their interface.
    Randomness ([os.urandom], the IV and time stamp of a Fernet token) is an
    explicit argument. *)

Definition bytes := list Byte.byte.

Record Cryptography : Type := {
  (** whether [Fernet(key)] accepts the key *)
  fernet_key_ok : bytes -> bool;
  (** [Fernet(key).encrypt(data)], with the entropy it draws *)
  fernet_encrypt : bytes -> bytes -> bytes -> bytes;
  (** [Fernet(key).decrypt(token)] *)
  fernet_decrypt : bytes -> bytes -> Py.result bytes;
  (** [PBKDF2HMAC(SHA256, 32, salt, 100000).derive(passphrase)] *)
  pbkdf2_derive : bytes -> bytes -> bytes;
  b64encode : bytes -> bytes;
  urlsafe_b64encode : bytes -> bytes;
  b64decode : bytes -> Py.result bytes;
  (** [str.encode()] and [bytes.decode()] *)
  str_encode : string -> bytes;
  bytes_decode : bytes -> Py.result string
}.

(** what the encryption manager needs of these libraries *)
Record CryptographyLaws (C : Cryptography) : Prop := {
  fernet_roundtrip : forall key entropy data,
      fernet_key_ok C key = true ->
      fernet_decrypt C key (fernet_encrypt C key entropy data) = Ok data;
  fernet_generated_key_ok : forall seed,
      List.length seed = 32 -> fernet_key_ok C (urlsafe_b64encode C seed) = true;
  pbkdf2_length : forall salt passphrase,
      List.length (pbkdf2_derive C salt passphrase) = 32;
  b64_roundtrip : forall data, b64decode C (b64encode C data) = Ok data;
  b64encode_text : forall data, exists s,
      bytes_decode C (b64encode C data) = Ok s
      /\ PyStr.ascii_only s = true
      /\ str_encode C s = b64encode C data;
  codec_roundtrip : forall s, bytes_decode C (str_encode C s) = Ok s
}.

(** ** [EncryptionManager] *)

Section EncryptionManager.

Variable C : Cryptography.
Variable master_passphrase : string.

Definition _derive_key_from_passphrase (salt : bytes) : bytes :=
  urlsafe_b64encode C (pbkdf2_derive C salt (str_encode C master_passphrase)).

(** the [Fernet(key)] constructor *)
Definition Fernet (key : bytes) : Py.result bytes :=
  if fernet_key_ok C key then Ok key
  else Raise (ValueError
                "Fernet key must be 32 url-safe base64-encoded bytes.").

(** [base64.b64decode] of a [str] argument *)
Definition b64decode_str (s : string) : Py.result bytes :=
  if PyStr.ascii_only s then b64decode C (str_encode C s)
  else Raise (ValueError
                "string argument should contain only ASCII characters").

Definition same_key_row (table_name column_name : pyname) (r : key_row)
  : bool :=
  sql_eq (mk_table_name r) table_name && sql_eq (mk_column_name r) column_name.

Definition set_master_keys (db : database) (rows : list key_row)
  : database :=
  {| system_users := system_users db;
     access_control := access_control db;
     access_id_seq := access_id_seq db;
     master_keys := rows;
     information_schema_tables := information_schema_tables db;
     information_schema_columns := information_schema_columns db |}.

(** [INSERT ... ON CONFLICT (table_name, column_name) DO UPDATE] *)
Definition upsert_key (rows : list key_row) (table_name column_name : string)
           (key_data : string) : list key_row :=
  if existsb (same_key_row (Some table_name) (Some column_name)) rows then
    map (fun r =>
           if same_key_row (Some table_name) (Some column_name) r then
             {| mk_table_name := mk_table_name r;
                mk_column_name := mk_column_name r;
                encrypted_key := key_data |}
           else r) rows
  else rows ++ [{| mk_table_name := table_name;
                   mk_column_name := column_name;
                   encrypted_key := key_data |}].

(** [generate_column_key]: [seed] is the 32 bytes behind
    [Fernet.generate_key()], [salt] is [os.urandom(16)], [entropy] is what
    the wrapping encryption draws.  Returns the column key and the
    datastore with the wrapped key stored. *)
Definition generate_column_key (db : database)
           (table_name column_name : string) (seed salt entropy : bytes)
  : Py.result (bytes * database) :=
  let column_key := urlsafe_b64encode C seed in
  let master_key := _derive_key_from_passphrase salt in
  f <- Fernet master_key ;;
  let encrypted_column_key := fernet_encrypt C f entropy column_key in
  key_data <- bytes_decode C (b64encode C (salt ++ encrypted_column_key)%list) ;;
  Ok (column_key,
      set_master_keys db
        (upsert_key (master_keys db) table_name column_name key_data)).

Definition get_column_key (db : database) (table_name column_name : pyname)
  : Py.result bytes :=
  match filter (same_key_row table_name column_name) (master_keys db) with
  | [] =>
    Raise (ValueError ("no encryption key found for " ++ name_str table_name
                       ++ "." ++ name_str column_name))
  | row :: _ =>
    key_data <- b64decode_str (encrypted_key row) ;;
    let salt := firstn 16 key_data in
    let encrypted_column_key := skipn 16 key_data in
    let master_key := _derive_key_from_passphrase salt in
    f <- Fernet master_key ;;
    fernet_decrypt C f encrypted_column_key
  end.

Definition encrypt_value (db : database) (value : Py.value)
           (table_name column_name : pyname) (entropy : bytes)
  : Py.result Py.value :=
  match value with
  | VNone => Ok VNone
  | _ =>
    column_key <- get_column_key db table_name column_name ;;
    f <- Fernet column_key ;;
    let encrypted := fernet_encrypt C f entropy (str_encode C (Py.str value)) in
    text <- bytes_decode C (b64encode C encrypted) ;;
    Ok (VStr text)
  end.

Definition decrypt_value (db : database) (encrypted_value : Py.value)
           (table_name column_name : pyname) : Py.result Py.value :=
  match encrypted_value with
  | VNone => Ok VNone
  | _ =>
    column_key <- get_column_key db table_name column_name ;;
    f <- Fernet column_key ;;
    encrypted <- (match encrypted_value with
                  | VStr s => b64decode_str s
                  | _ => Raise (TypeError
                           "argument should be a bytes-like object or ASCII string")
                  end) ;;
    decrypted <- fernet_decrypt C f encrypted ;;
    text <- bytes_decode C decrypted ;;
    Ok (VStr text)
  end.

Definition is_column_encrypted (db : database)
           (table_name column_name : pyname) : bool :=
  existsb (same_key_row table_name column_name) (master_keys db).

End EncryptionManager.

(** ** [QueryEngine] *)

(** A result row ([RealDictRow]): column names in result order. *)
Definition row := list (string * Py.value).

(** [row[k]] *)
Fixpoint dict_get (d : row) (k : string) : Py.result Py.value :=
  match d with
  | [] => Raise (KeyError k)
  | (k', v) :: d' => if String.eqb k' k then Ok v else dict_get d' k
  end.

(** [d[k] = v]: an existing key keeps its place, a new one goes last *)
Fixpoint dict_set (d : row) (k : string) (v : Py.value) : row :=
  match d with
  | [] => [(k, v)]
  | (k', v') :: d' =>
    if String.eqb k' k then (k, v) :: d' else (k', v') :: dict_set d' k v
  end.

(** [list(d.keys())] *)
Definition dict_keys (d : row) : list string := map fst d.

(** [list(results[0].keys())], the keys [execute_query] iterates over *)
Definition result_keys (results : list row) : list string :=
  match results with
  | [] => []
  | first :: _ => dict_keys first
  end.

(** the dict returned by [validate_permissions] *)
Record validation : Type := {
  allowed : bool;
  reason : string;
  v_denied_items : list string
}.

(** the dict returned by [execute_query]; the key [denied_items] is present
    on a denial only *)
Record query_result : Type := {
  success : bool;
  data : list row;
  message : string;
  denied_items : option (list string);
  columns : list string
}.

(** What the engine is constructed over: the parser, the datastore running a
    user statement with [fetch=True] (its rows or its exception, and the
    datastore afterwards), and the encryption manager's libraries and
    passphrase. *)
Record Collaborators : Type := {
  sqlparse_parse : string -> Py.result (list statement);
  datastore_execute : string -> database -> Py.result (list row) * database;
  cryptography : Cryptography;
  master_passphrase : string
}.

(** [x in columns] for the wildcard marker *)
Definition has_star (columns : list pyname) : bool :=
  existsb (fun c => pyname_eqb c (Some "*")) columns.

Definition table_denial (db : database) (name : string) (table : pyname)
  : list string :=
  if negb (table_exists db table) then
    ["table '" ++ name_str table ++ "' does not exist"]
  else if negb (check_access db name table None) then
    ["no access to table '" ++ name_str table ++ "'"]
  else [].

Definition column_denial (db : database) (name : string)
           (table column : pyname) : list string :=
  if negb (check_access db name table column) then
    ["no access to column '" ++ name_str table ++ "." ++ name_str column ++ "'"]
  else [].

Definition validate_permissions (db : database) (name : string)
           (tables columns : list pyname) : validation :=
  match get_user db name with
  | None =>
    {| allowed := false;
       reason := "user '" ++ name ++ "' does not exist";
       v_denied_items := [] |}
  | Some user =>
    if String.eqb (role user) "admin" then
      {| allowed := true; reason := "admin has full access";
         v_denied_items := [] |}
    else
      let table_items := flat_map (table_denial db name) tables in
      let column_items :=
          match columns with
          | [] => []
          | _ :: _ =>
            if negb (has_star columns) then
              flat_map (fun table =>
                          flat_map (column_denial db name table) columns)
                       tables
            else []
          end in
      match (table_items ++ column_items)%list with
      | [] => {| allowed := true; reason := "access granted";
                 v_denied_items := [] |}
      | denied =>
        {| allowed := false; reason := "insufficient permissions";
           v_denied_items := denied |}
      end
  end.

(** [get_table_columns] *)
Definition get_table_columns (db : database) (table_name : pyname)
  : list string :=
  map ic_column_name (get_table_schema db table_name).

(** the wildcard expansion of [execute_query]: a marker in the column list
    replaces the list by the columns of the referenced tables *)
Definition expand_wildcard (db : database) (tables columns : list pyname)
  : list pyname :=
  if has_star columns then
    flat_map (fun table => map Some (get_table_columns db table)) tables
  else columns.

Section QueryEngine.

Variable env : Collaborators.

(** the body of the innermost loops of [execute_query]: the first table
    that has the column secured decides, then [break] *)
Definition transform_cell (db : database) (name : string)
           (tables : list pyname) (col_name : string) (value : Py.value)
  : Py.value :=
  match find (fun table => is_column_encrypted db table (Some col_name))
             tables with
  | Some table =>
    if check_access db name table (Some col_name) then
      match decrypt_value (cryptography env) (master_passphrase env)
                          db value table (Some col_name) with
      | Ok v => v
      | Raise _ => VStr "[decryption error]"
      end
    else mask_value value (VStr "partial")
  | None => value
  end.

Fixpoint transform_row (db : database) (name : string)
         (tables : list pyname) (column_names : list string) (r : row)
         (decrypted_row : row) : Py.result row :=
  match column_names with
  | [] => Ok decrypted_row
  | col_name :: rest =>
    value <- dict_get r col_name ;;
    transform_row db name tables rest r
      (dict_set decrypted_row col_name
                (transform_cell db name tables col_name value))
  end.

Definition failure (msg : string) (denied : option (list string))
  : query_result :=
  {| success := false; data := []; message := msg;
     denied_items := denied; columns := [] |}.

(** the [try] block of [execute_query] after the datastore answered *)
Definition transform_results (db : database) (name : string)
           (tables : list pyname) (results : list row)
  : Py.result query_result :=
  match results with
  | [] =>
    Ok {| success := true; data := [];
          message := "query executed successfully, no results";
          denied_items := None; columns := [] |}
  | _ :: _ =>
    let column_names := result_keys results in
    decrypted_results <-
      map_result (fun r => transform_row db name tables column_names r [])
                 results ;;
    Ok {| success := true; data := decrypted_results;
          message := "query executed successfully, "
                     ++ Py.str_of_Z (Z.of_nat (List.length decrypted_results))
                     ++ " rows returned";
          denied_items := None; columns := column_names |}
  end.

(** [execute_query]: the result, the datastore afterwards, and the
    statements handed to the datastore for execution *)
Definition execute_query (db : database) (name : string) (sql : string)
  : query_result * database * list string :=
  match parse_query (sqlparse_parse env) sql with
  | Raise e =>
    (failure ("failed to parse query: " ++ Py.exn_str e) None, db, [])
  | Ok parsed =>
    let tables := q_tables parsed in
    let columns := expand_wildcard db tables (q_columns parsed) in
    let validation := validate_permissions db name tables columns in
    if negb (allowed validation) then
      (failure (reason validation) (Some (v_denied_items validation)), db, [])
    else
      let (outcome, db') := datastore_execute env sql db in
      (match (results <- outcome ;;
              transform_results db' name tables results) with
       | Ok r => r
       | Raise e => failure ("query execution failed: " ++ Py.exn_str e) None
       end, db', [sql])
  end.

End QueryEngine.

(** ** A sequence of grants on one tuple, as a client issues them *)

Fixpoint grant_many (db : database) (name : string) (table_name : string)
         (column_name : pyname) (grants : list (string * Z))
  : Py.result database :=
  match grants with
  | [] => Ok db
  | (level, now) :: rest =>
    db' <- grant_access db name table_name column_name level now ;;
    grant_many db' name table_name column_name rest
  end.

(** the grant records of one (principal, table, column) tuple *)
Definition grants_of (db : database) (uid : Z) (table_name : string)
           (column_name : pyname) : list access_row :=
  filter (same_grant_tuple uid table_name column_name) (access_control db).

(** the invariant of the grant table: at most one record per tuple *)
Definition grants_unique (db : database) : Prop :=
  forall uid table_name column_name,
    List.length (grants_of db uid table_name column_name) <= 1.

(** ** A small instance of the library interface, to run the examples

    Base64 is replaced by a two-letters-per-byte encoding (still ASCII
    text), Fernet by a reversible scramble that accepts 64-byte keys. *)

Module TestLibs.

Definition letter (n : nat) : Byte.byte :=
  match Byte.of_nat (65 + n) with
  | Some b => b
  | None => Byte.x00
  end.

Definition encode_byte (b : Byte.byte) : bytes :=
  let n := Byte.to_nat b in [letter (n / 16); letter (n mod 16)].

Definition encode (data : bytes) : bytes := flat_map encode_byte data.

Definition is_letter (b : Byte.byte) : bool :=
  Nat.leb 65 (Byte.to_nat b) && Nat.leb (Byte.to_nat b) 80.

Definition decode_pair (hi lo : Byte.byte) : option Byte.byte :=
  if is_letter hi && is_letter lo then
    Byte.of_nat ((Byte.to_nat hi - 65) * 16 + (Byte.to_nat lo - 65))
  else None.

Fixpoint decode (data : bytes) : Py.result bytes :=
  match data with
  | [] => Ok []
  | [_] => Raise (ValueError "Incorrect padding")
  | hi :: lo :: rest =>
    match decode_pair hi lo with
    | Some b => tail <- decode rest ;; Ok (b :: tail)
    | None => Raise (ValueError "Invalid base64-encoded string")
    end
  end.

Definition libs : Cryptography :=
  {| fernet_key_ok := fun key => Nat.eqb (List.length key) 64;
     fernet_encrypt := fun _ _ data => rev data;
     fernet_decrypt := fun _ token => Ok (rev token);
     pbkdf2_derive := fun salt passphrase =>
         firstn 32 (salt ++ passphrase ++ repeat Byte.x00 32)%list;
     b64encode := encode;
     urlsafe_b64encode := encode;
     b64decode := decode;
     str_encode := list_byte_of_string;
     bytes_decode := fun b => Ok (string_of_list_byte b) |}.

End TestLibs.

(** ** The statements and the datastore of the examples *)

Module Scenario.

Definition ws : token := Token Whitespace " ".
Definition comma : token := Token Punctuation ",".
Definition ident (name : string) : token :=
  Group Identifier name (Some name) [Token Name name].

(** [sqlparse.parse("SELECT a, b FROM t")[0].tokens] *)
Definition select_a_b_from_t : statement :=
  [Token DML "SELECT"; ws;
   Group IdentifierList "a, b" None [ident "a"; comma; ws; ident "b"]; ws;
   Token Keyword "FROM"; ws; ident "t"].

(** [sqlparse.parse("SELECT * FROM t")[0].tokens]: the star is a leaf of
    type [Wildcard] *)
Definition select_star_from_t : statement :=
  [Token DML "SELECT"; ws; Token Wildcard "*"; ws;
   Token Keyword "FROM"; ws; ident "t"].

(** [sqlparse.parse("SELECT 1")[0].tokens] *)
Definition select_1 : statement :=
  [Token DML "SELECT"; ws; Token Number "1"].

(** [sqlparse.parse("SELECT name, ssn FROM employees")[0].tokens] *)
Definition select_name_ssn_from_employees : statement :=
  [Token DML "SELECT"; ws;
   Group IdentifierList "name, ssn" None
         [ident "name"; comma; ws; ident "ssn"]; ws;
   Token Keyword "FROM"; ws; ident "employees"].

(** the parser on the statements above; the empty string has no
    statement; other texts are not used *)
Definition parse (sql : string) : Py.result (list statement) :=
  if String.eqb sql "SELECT a, b FROM t" then Ok [select_a_b_from_t]
  else if String.eqb sql "SELECT * FROM t" then Ok [select_star_from_t]
  else if String.eqb sql "SELECT 1" then Ok [select_1]
  else if String.eqb sql "SELECT name, ssn FROM employees"
       then Ok [select_name_ssn_from_employees]
  else Ok [].

Definition passphrase : string := "correct horse battery staple".

Definition employees_columns : list column_row :=
  map (fun c => {| ic_table_name := "employees"; ic_column_name := fst c;
                   ic_data_type := snd c |})
      [("employee_id", "integer"); ("name", "character varying");
       ("email", "character varying"); ("ssn", "text");
       ("salary", "integer"); ("department", "character varying")].

(** users and grants as [test_engine.py] sets them up: the analyst holds a
    table-wide grant on [employees] and a column grant on
    [employees.salary]; the viewer holds a column grant on
    [employees.name] only *)
Definition unsecured_db : database :=
  {| system_users :=
       [{| user_id := 1; username := "admin"; role := "admin" |};
        {| user_id := 2; username := "analyst"; role := "analyst" |};
        {| user_id := 3; username := "viewer"; role := "viewer" |}];
     access_control :=
       [{| access_id := 1; ac_user_id := 2; ac_table_name := "employees";
           ac_column_name := None; access_level := "read";
           granted_at := 0 |};
        {| access_id := 2; ac_user_id := 2; ac_table_name := "employees";
           ac_column_name := Some "salary"; access_level := "read";
           granted_at := 0 |};
        {| access_id := 3; ac_user_id := 3; ac_table_name := "employees";
           ac_column_name := Some "name"; access_level := "read";
           granted_at := 0 |}];
     access_id_seq := 4;
     master_keys := [];
     information_schema_tables := ["employees"];
     information_schema_columns := employees_columns |}.

Definition seed : bytes := repeat Byte.x2a 32.
Definition salt : bytes := repeat Byte.x07 16.

(** after [generate_column_key('employees', 'ssn')] *)
Definition employees_db : database :=
  match generate_column_key TestLibs.libs passphrase unsecured_db
                            "employees" "ssn" seed salt [] with
  | Ok (_, db) => db
  | Raise _ => unsecured_db
  end.

(** a stored, encrypted [ssn] cell *)
Definition stored_ssn (plaintext : string) : Py.value :=
  match encrypt_value TestLibs.libs passphrase employees_db (VStr plaintext)
                      (Some "employees") (Some "ssn") [] with
  | Ok v => v
  | Raise _ => VNone
  end.

(** the rows the datastore answers with *)
Definition rows_of (sql : string) : list row :=
  if String.eqb sql "SELECT name, ssn FROM employees" then
    [[("name", VStr "john smith"); ("ssn", stored_ssn "123-45-6789")];
     [("name", VStr "jane doe"); ("ssn", stored_ssn "987-65-4321")]]
  else if String.eqb sql "SELECT 1" then [[("?column?", VInt 1)]]
  else [].

Definition execute (sql : string) (db : database)
  : Py.result (list row) * database :=
  (Ok (rows_of sql), db).

Definition env : Collaborators :=
  {| sqlparse_parse := parse;
     datastore_execute := execute;
     cryptography := TestLibs.libs;
     master_passphrase := passphrase |}.

(** rows whose [ssn] cell was never encrypted, or is not text *)
Definition damaged_rows : list row :=
  [[("name", VStr "john smith"); ("ssn", VStr "123-45-6789")];
   [("name", VStr "jane doe"); ("ssn", stored_ssn "987-65-4321")];
   [("name", VStr "bob johnson"); ("ssn", VInt 555123456)]].

Definition damaged_env : Collaborators :=
  {| sqlparse_parse := parse;
     datastore_execute := fun _ db => (Ok damaged_rows, db);
     cryptography := TestLibs.libs;
     master_passphrase := passphrase |}.

End Scenario.

(** ** [QueryEngine.format_results] *)

Definition newline : string := String (ascii_of_nat 10) EmptyString.

(** the marks of the command line, as their UTF-8 bytes *)
Definition check_mark : string :=
  String (ascii_of_nat 226) (String (ascii_of_nat 156)
         (String (ascii_of_nat 147) EmptyString)).
Definition cross_mark : string :=
  String (ascii_of_nat 226) (String (ascii_of_nat 156)
         (String (ascii_of_nat 151) EmptyString)).

(** [sep.join(items)] *)
Fixpoint join (sep : string) (items : list string) : string :=
  match items with
  | [] => EmptyString
  | x :: rest =>
    match rest with
    | [] => x
    | _ :: _ => x ++ sep ++ join sep rest
    end
  end.

(** [s.ljust(width)] *)
Definition ljust (s : string) (width : nat) : string :=
  s ++ str_mul " " (width - String.length s).

(** the inner loop over [data]: the width grows to the longest [str(row[col])] *)
Fixpoint widen (col : string) (data : list row) (width : nat)
  : Py.result nat :=
  match data with
  | [] => Ok width
  | r :: rest =>
    v <- dict_get r col ;;
    let val_len := String.length (Py.str v) in
    widen col rest (if Nat.ltb width val_len then val_len else width)
  end.

(** the dict [col_widths], in the order of [columns] *)
Definition col_widths (columns : list string) (data : list row)
  : Py.result (list (string * nat)) :=
  map_result (fun col => w <- widen col data (String.length col) ;; Ok (col, w))
             columns.

(** [col_widths[col]] *)
Fixpoint width_of (widths : list (string * nat)) (col : string) : nat :=
  match widths with
  | [] => 0
  | (c, w) :: rest => if String.eqb c col then w else width_of rest col
  end.

(** the header, the separator and the row lines of the table *)
Definition format_table (columns : list string) (data : list row)
  : Py.result (string * string * list string) :=
  widths <- col_widths columns data ;;
  let header :=
      join " | " (map (fun col => ljust col (width_of widths col)) columns) in
  let separator :=
      join "-+-" (map (fun col => str_mul "-" (width_of widths col)) columns) in
  rows <- map_result
            (fun r =>
               cells <- map_result
                          (fun col =>
                             v <- dict_get r col ;;
                             Ok (ljust (Py.str v) (width_of widths col)))
                          columns ;;
               Ok (join " | " cells))
            data ;;
  Ok (header, separator, rows).

Definition format_results (results : query_result) : Py.result string :=
  if negb (success results) then Ok (cross_mark ++ " " ++ message results)
  else
    match data results with
    | [] => Ok (check_mark ++ " " ++ message results)
    | _ :: _ =>
      table <- format_table (columns results) (data results) ;;
      let '(header, separator, rows) := table in
      Ok (newline ++ header ++ newline ++ separator ++ newline
          ++ join newline rows
          ++ newline ++ newline ++ check_mark ++ " " ++ message results)
    end.

(** ** [AuditLogger]

    The compliance log is kept apart from [database]: the statements of
    users are taken not to write to it.  Length limits of its columns are
    not modelled. *)

Record log_row : Type := {
  lr_id : Z;
  lr_timestamp : Z;
  lr_user_id : option Z;
  lr_username : string;
  lr_action : string;
  lr_query_text : option string;
  lr_tables_accessed : option string;
  lr_columns_accessed : option string;
  lr_status : string;
  lr_reason : option string
}.

Record audit_store : Type := {
  compliance_log : list log_row;
  log_id_seq : Z
}.

(** the index of the first item that is not a [str] *)
Fixpoint first_none (i : nat) (items : list pyname) : option nat :=
  match items with
  | [] => None
  | Some _ :: rest => first_none (S i) rest
  | None :: _ => Some i
  end.

(** [sep.join(items)] on names: an item that is [None] is a [TypeError] *)
Definition join_names (sep : string) (items : list pyname)
  : Py.result string :=
  match first_none 0 items with
  | Some i =>
    Raise (TypeError ("sequence item " ++ Py.str_of_Z (Z.of_nat i)
                      ++ ": expected str instance, NoneType found"))
  | None => Ok (join sep (map name_str items))
  end.

(** [', '.join(items) if items else None] *)
Definition join_or_none (items : list pyname) : Py.result (option string) :=
  match items with
  | [] => Ok None
  | _ :: _ => s <- join_names ", " items ;; Ok (Some s)
  end.

(** [SELECT user_id FROM system_users WHERE username = %s], first row *)
Definition lookup_user_id (db : database) (name : string) : option Z :=
  match find (fun u => String.eqb (username u) name) (system_users db) with
  | Some u => Some (user_id u)
  | None => None
  end.

Definition insert_log (store : audit_store) (now : Z) (uid : option Z)
           (name action : string) (query_text tables columns : option string)
           (status : string) (reason : option string) : audit_store :=
  {| compliance_log :=
       compliance_log store ++
       [{| lr_id := log_id_seq store; lr_timestamp := now;
           lr_user_id := uid; lr_username := name; lr_action := action;
           lr_query_text := query_text; lr_tables_accessed := tables;
           lr_columns_accessed := columns; lr_status := status;
           lr_reason := reason |}];
     log_id_seq := log_id_seq store + 1 |}.

(** [log_query]; [now] is the datastore's [CURRENT_TIMESTAMP] *)
Definition log_query (db : database) (store : audit_store) (name : string)
           (query : string) (tables columns : list pyname) (status : string)
           (reason : option string) (now : Z) : Py.result audit_store :=
  let uid := lookup_user_id db name in
  tables_str <- join_or_none tables ;;
  columns_str <- join_or_none columns ;;
  Ok (insert_log store now uid name "query" (Some query) tables_str
                 columns_str status reason).

(** [log_action] *)
Definition log_action (db : database) (store : audit_store) (name : string)
           (action : string) (details : option string) (status : string)
           (now : Z) : audit_store :=
  insert_log store now (lookup_user_id db name) name action details None None
             status None.

(** ** The [execute] command of [cli.py]

    The echoed text, the datastore and the log afterwards, and the
    statements handed to the datastore. *)

Definition cli_execute (env : Collaborators) (db : database)
           (store : audit_store) (name sql : string) (now : Z)
  : string * database * audit_store * list string :=
  let '(result, db', executed) := execute_query env db name sql in
  let failed (e : Py.exn) := cross_mark ++ " query failed: " ++ Py.exn_str e in
  match parse_query (sqlparse_parse env) sql with
  | Raise e => (failed e, db', store, executed)
  | Ok parsed =>
    let status := if success result then "success" else "denied" in
    let reason := if success result then None else Some (message result) in
    match log_query db' store name sql (q_tables parsed) (q_columns parsed)
                    status reason now with
    | Raise e => (failed e, db', store, executed)
    | Ok store' =>
      match format_results result with
      | Raise e => (failed e, db', store', executed)
      | Ok text => (text, db', store', executed)
      end
    end
  end.

(** ** [DataLoader]: column names of a created table *)

Module Loader.

(** lower case of a code point below 256: the ASCII capitals and the
    Latin-1 capitals (192 to 222, the multiplication sign 215 apart) *)
Definition lower_char (c : ascii) : ascii :=
  let n := nat_of_ascii c in
  if (Nat.leb 65 n && Nat.leb n 90)
     || (Nat.leb 192 n && Nat.leb n 222 && negb (Nat.eqb n 215))
  then ascii_of_nat (n + 32) else c.

(** [s.lower()] *)
Fixpoint lower (s : string) : string :=
  match s with
  | EmptyString => EmptyString
  | String c s' => String (lower_char c) (lower s')
  end.

(** [s.replace(old, new)] for one-character [old] and [new] *)
Fixpoint replace_char (old new : ascii) (s : string) : string :=
  match s with
  | EmptyString => EmptyString
  | String c s' =>
    String (if Ascii.eqb c old then new else c) (replace_char old new s')
  end.

(** [col_name.lower().replace(' ', '_').replace('-', '_')] *)
Definition clean_name (col_name : string) : string :=
  replace_char "-" "_" (replace_char " " "_" (lower col_name)).

End Loader.

(** the invariant of the key table (its UNIQUE constraint): at most one
    record per column *)
Definition keys_unique (db : database) : Prop :=
  forall table_name column_name : string,
    List.length (filter (same_key_row (Some table_name) (Some column_name))
                        (master_keys db)) <= 1.

(** * Properties *)

(** ** Masking *)

Section Masking.

Local Open Scope char_scope.

Lemma str_mul_star_length (n : nat) : String.length (str_mul "*" n) = n.
Proof. induction n as [|n IH]; simpl; [reflexivity | now rewrite IH]. Qed.

Lemma str_mul_star_get (n i : nat) :
  i < n -> String.get i (str_mul "*" n) = Some "*".
Proof.
  revert i; induction n as [|n IH]; intros i Hi; [lia|].
  destruct i as [|i]; simpl; [reflexivity | apply IH; lia].
Qed.

Lemma str_mul_star_only (n i : nat) (c : ascii) :
  String.get i (str_mul "*" n) = Some c -> c = "*".
Proof.
  revert i; induction n as [|n IH]; intros i; simpl.
  - destruct i; discriminate.
  - destruct i as [|i]; simpl; [intros [= <-]; reflexivity | apply IH].
Qed.

Lemma append_length (s1 s2 : string) :
  String.length (s1 ++ s2) = String.length s1 + String.length s2.
Proof. induction s1 as [|a s1 IH]; simpl; [reflexivity | now rewrite IH]. Qed.

Lemma append_get_left (s1 s2 : string) (i : nat) :
  i < String.length s1 -> String.get i (s1 ++ s2) = String.get i s1.
Proof.
  revert i; induction s1 as [|a s1 IH]; simpl; intros i Hi; [lia|].
  destruct i as [|i]; [reflexivity | apply IH; lia].
Qed.

Lemma append_get_right (s1 s2 : string) (i : nat) :
  String.length s1 <= i ->
  String.get i (s1 ++ s2) = String.get (i - String.length s1) s2.
Proof.
  revert i; induction s1 as [|a s1 IH]; simpl; intros i Hi.
  - now rewrite Nat.sub_0_r.
  - destruct i as [|i]; [lia | apply IH; lia].
Qed.

Lemma str_drop_length (k : nat) (s : string) :
  String.length (str_drop k s) = String.length s - k.
Proof.
  revert s; induction k as [|k IH]; intros s; simpl.
  - now rewrite Nat.sub_0_r.
  - destruct s as [|a s]; simpl; [reflexivity | apply IH].
Qed.

Lemma str_drop_get (k i : nat) (s : string) :
  String.get i (str_drop k s) = String.get (k + i) s.
Proof.
  revert s; induction k as [|k IH]; intros s; simpl; [reflexivity|].
  destruct s as [|a s]; simpl; [now destruct i | apply IH].
Qed.

Lemma char_in_get (c : ascii) (s : string) :
  char_in c s = true <-> exists i, String.get i s = Some c.
Proof.
  induction s as [|a s IH]; simpl.
  - split; [discriminate | intros [[|i] H]; discriminate].
  - rewrite orb_true_iff, IH, Ascii.eqb_eq. split.
    + intros [-> | [i H]]; [now exists 0 | now exists (S i)].
    + intros [[|i] H]; [left; now injection H | right; now exists i].
Qed.

(** [mask_value] answers a string for every value but [None]. *)
Lemma mask_value_is_str (v mask_type : Py.value) :
  v <> VNone -> exists out, mask_value v mask_type = VStr out.
Proof.
  intros Hv. destruct v; [contradiction | | |]; unfold mask_value;
    repeat match goal with |- context [if ?b then _ else _] => destruct b end;
    eexists; reflexivity.
Qed.

Lemma mask_value_full (v : Py.value) :
  v <> VNone ->
  mask_value v (VStr "full") = VStr (str_mul "*" (String.length (Py.str v))).
Proof. intros Hv. destruct v; [contradiction | | |]; reflexivity. Qed.

Lemma mask_value_partial (v : Py.value) :
  v <> VNone ->
  mask_value v (VStr "partial") =
  VStr (if Nat.leb (String.length (Py.str v)) 4
        then str_mul "*" (String.length (Py.str v))
        else str_mul "*" (String.length (Py.str v) - 4)
             ++ str_last 4 (Py.str v)).
Proof.
  intros Hv. destruct v; [contradiction | | |]; unfold mask_value;
    change (eq_str (VStr "partial") "full") with false;
    change (eq_str (VStr "partial") "partial") with true; cbv iota;
    destruct (Nat.leb _ 4); reflexivity.
Qed.

(** C4, as the code has it: under ['full'] the mask has the length of
    [str(s)] and consists of stars only; under ['partial'] it has the
    length of [str(s)], is all stars when that length is at most 4, and
    otherwise carries a star at every position but the last four, which
    carry the characters of [str(s)]. *)
Theorem mask_value_law (v : Py.value) :
  v <> VNone ->
  (exists out,
      mask_value v (VStr "full") = VStr out
      /\ String.length out = String.length (Py.str v)
      /\ forall i c, String.get i out = Some c -> c = "*")
  /\
  (exists out,
      mask_value v (VStr "partial") = VStr out
      /\ String.length out = String.length (Py.str v)
      /\ (String.length (Py.str v) <= 4 ->
          forall i c, String.get i out = Some c -> c = "*")
      /\ (4 < String.length (Py.str v) ->
          forall i, i < String.length (Py.str v) ->
               (i < String.length (Py.str v) - 4 ->
                String.get i out = Some "*")
               /\ (String.length (Py.str v) - 4 <= i ->
                   String.get i out = String.get i (Py.str v)))).
Proof.
  intros Hv. split.
  - eexists. split; [apply mask_value_full, Hv|]. split.
    + apply str_mul_star_length.
    + intros i c. apply str_mul_star_only.
  - eexists. split; [apply mask_value_partial, Hv|].
    destruct (Nat.leb_spec (String.length (Py.str v)) 4) as [Hle|Hgt].
    + split; [apply str_mul_star_length|]. split.
      * intros _ i c. apply str_mul_star_only.
      * intros Hlt. lia.
    + assert (Hlast : String.length (str_last 4 (Py.str v)) = 4).
      { unfold str_last. rewrite str_drop_length. lia. }
      split; [rewrite append_length, str_mul_star_length, Hlast; lia|].
      split; [intros Hle; lia|].
      intros _ i Hi. split.
      * intros Hlo. rewrite append_get_left
          by (rewrite str_mul_star_length; exact Hlo).
        apply str_mul_star_get, Hlo.
      * intros Hhi. rewrite append_get_right
          by (rewrite str_mul_star_length; exact Hhi).
        rewrite str_mul_star_length. unfold str_last.
        rewrite str_drop_get. f_equal. lia.
Qed.

Lemma mask_value_law_witness :
  exists out,
    mask_value (VInt 85000) (VStr "partial") = VStr out
    /\ String.length out = String.length (Py.str (VInt 85000))
    /\ String.get 0 out = Some "*"
    /\ String.get 1 out = String.get 1 (Py.str (VInt 85000)).
Proof.
  destruct (mask_value_law (VInt 85000)) as [_ (out & Hout & Hlen & _ & Hlong)];
    [discriminate|].
  exists out. split; [exact Hout|]. split; [exact Hlen|].
  split.
  - apply (Hlong ltac:(simpl; lia) 0); simpl; lia.
  - apply (Hlong ltac:(simpl; lia) 1); simpl; lia.
Defined.

(** C4 as stated fails: the full mask of a value that itself contains a
    star contains a character of that value. *)
Lemma mask_value_full_shares_star :
  exists out,
    mask_value (VStr "a*b") (VStr "full") = VStr out
    /\ ~ (forall c, char_in c out = true ->
                    char_in c (Py.str (VStr "a*b")) = false).
Proof.
  exists "***"%string. split; [reflexivity|].
  intros H. specialize (H "*" eq_refl). discriminate H.
Qed.

(** C10: a masking mode other than ['full'] and ['partial'] leaves the
    value unmasked. *)
Theorem mask_value_unknown_mode (v mask_type : Py.value) :
  v <> VNone ->
  mask_type <> VStr "full" ->
  mask_type <> VStr "partial" ->
  mask_value v mask_type = VStr (Py.str v).
Proof.
  intros Hv Hfull Hpartial.
  assert (Hf : eq_str mask_type "full" = false).
  { destruct mask_type as [|m| |]; try reflexivity. simpl.
    apply String.eqb_neq. congruence. }
  assert (Hp : eq_str mask_type "partial" = false).
  { destruct mask_type as [|m| |]; try reflexivity. simpl.
    apply String.eqb_neq. congruence. }
  destruct v; [contradiction | | |]; unfold mask_value;
    rewrite Hf, Hp; reflexivity.
Qed.

Lemma mask_value_unknown_mode_witness :
  mask_value (VStr "123-45-6789") (VStr "none") = VStr "123-45-6789".
Proof.
  apply (mask_value_unknown_mode (VStr "123-45-6789") (VStr "none"));
    discriminate.
Defined.

End Masking.

Example mask_partial_ssn :
  mask_value (VStr "123-45-6789") (VStr "partial") = VStr "*******6789".
Proof. reflexivity. Qed.

Example mask_full_int :
  mask_value (VInt 85000) (VStr "full") = VStr "*****".
Proof. reflexivity. Qed.

Example mask_partial_short :
  mask_value (VInt (-42)) (VStr "partial") = VStr "***".
Proof. reflexivity. Qed.

(** ** Reference extraction *)

Section Extraction.

Lemma has_star_app (l1 l2 : list pyname) :
  has_star (l1 ++ l2) = has_star l1 || has_star l2.
Proof. apply existsb_app. Qed.

Lemma has_star_filter_not_star (l : list pyname) :
  has_star (filter not_star l) = false.
Proof.
  induction l as [|c l IH]; [reflexivity|]. simpl.
  unfold not_star at 1. destruct (pyname_eqb c (Some "*")) eqn:E; simpl.
  - exact IH.
  - unfold has_star in *. simpl. now rewrite E, IH.
Qed.

(** The wildcard marker enters the column list only through a grouped
    token that is neither an identifier nor an identifier list and whose
    text strips to a star; a leaf token never adds it. *)
Lemma select_columns_star (tokens : list token) :
  forall select_seen columns columns',
    select_columns select_seen tokens columns = Ok columns' ->
    has_star columns' = true ->
    has_star columns = true
    \/ exists text rn children,
        In (Group OtherGroup text rn children) tokens
        /\ PyStr.strip text = "*".
Proof.
  induction tokens as [|token rest IH]; intros seen columns columns' Hrun Hstar.
  - injection Hrun as <-. now left.
  - assert (Hrest : forall seen' cols,
               select_columns seen' rest cols = Ok columns' ->
               has_star cols = has_star columns ->
               has_star columns = true
               \/ exists text rn children,
                   In (Group OtherGroup text rn children) (token :: rest)
                   /\ PyStr.strip text = "*").
    { intros seen' cols Hr Hc.
      destruct (IH _ _ _ Hr Hstar) as [H | (text & rn & ch & Hin & Hs)].
      - left. now rewrite <- Hc.
      - right. exists text, rn, ch. split; [now right | exact Hs]. }
    simpl in Hrun.
    destruct (ttype_is token DML
              && String.eqb (PyStr.upper (value token)) "SELECT");
      [now apply (Hrest true columns)|].
    destruct seen; [|now apply (Hrest false columns)].
    destruct (is_from token); [injection Hrun as <-; now left|].
    destruct token as [ty v | [| |] text rn children].
    + now apply (Hrest true columns).
    + apply (Hrest true _ Hrun).
      change (if not_star rn then [rn] else [])
        with (filter not_star [rn]).
      rewrite has_star_app, has_star_filter_not_star. apply orb_false_r.
    + simpl get_real_name in Hrun.
      destruct (map_result get_real_name _) as [names|e] eqn:En;
        [|discriminate Hrun].
      apply (Hrest true _ Hrun).
      rewrite has_star_app, has_star_filter_not_star. apply orb_false_r.
    + destruct (String.eqb (PyStr.strip text) "*") eqn:Es.
      * right. exists text, rn, children. split; [now left|].
        now apply String.eqb_eq.
      * now apply (Hrest true columns).
Qed.

Lemma parse_statement_star (parsed : statement) (p : parsed_query) :
  parse_statement parsed = Ok p ->
  has_star (q_columns p) = true ->
  exists text rn children,
    In (Group OtherGroup text rn children) parsed /\ PyStr.strip text = "*".
Proof.
  unfold parse_statement. intros Hp Hstar.
  destruct (from_tables false parsed []) as [tables|e]; [|discriminate Hp].
  simpl in Hp.
  destruct (statement_type parsed) as [ty|].
  - destruct (String.eqb ty "SELECT").
    + destruct (select_columns false parsed []) as [cols|e] eqn:Ec;
        [|discriminate Hp].
      injection Hp as <-. simpl in Hstar.
      destruct (select_columns_star _ _ _ _ Ec Hstar) as [H|H];
        [discriminate H | exact H].
    + injection Hp as <-. discriminate Hstar.
  - injection Hp as <-. discriminate Hstar.
Qed.

(** C5 on the code: [SELECT a, b FROM t] yields the table [t], the columns
    [a] and [b] and no wildcard marker; [SELECT * FROM t] yields the table
    [t] and an empty column list, but no wildcard marker either: the star
    is a leaf token of type [Wildcard], which the test [ttype is None]
    of [parse_query] rejects. *)
Theorem parse_query_select_examples :
  parse_query Scenario.parse "SELECT a, b FROM t"
  = Ok {| q_type := Some "SELECT"; q_tables := [Some "t"];
          q_columns := [Some "a"; Some "b"] |}
  /\ has_star [Some "a"; Some "b"] = false
  /\ parse_query Scenario.parse "SELECT * FROM t"
     = Ok {| q_type := Some "SELECT"; q_tables := [Some "t"];
             q_columns := [] |}
  /\ has_star [] = false.
Proof. repeat split. Qed.

End Extraction.

(** ** Authorization *)

Section Authorization.

Lemma column_grant_row_spec (uid : Z) (t c : string) (r : access_row) :
  column_grant_row uid (Some t) (Some c) r = true
  <-> ac_user_id r = uid /\ ac_table_name r = t /\ ac_column_name r = Some c.
Proof.
  unfold column_grant_row, sql_eq_nullable, sql_eq.
  rewrite !andb_true_iff, Z.eqb_eq, String.eqb_eq.
  destruct (ac_column_name r) as [c'|].
  - rewrite String.eqb_eq. intuition congruence.
  - intuition congruence.
Qed.

Lemma table_grant_row_spec (uid : Z) (t : string) (r : access_row) :
  table_grant_row uid (Some t) r = true
  <-> ac_user_id r = uid /\ ac_table_name r = t /\ ac_column_name r = None.
Proof.
  unfold table_grant_row, is_null, sql_eq.
  rewrite !andb_true_iff, Z.eqb_eq, String.eqb_eq.
  destruct (ac_column_name r); intuition congruence.
Qed.

Lemma role_not_admin (user : user_row) :
  role user <> "admin" -> String.eqb (role user) "admin" = false.
Proof. intros H. now apply String.eqb_neq. Qed.

Lemma check_access_non_admin (db : database) (name : string)
      (user : user_row) (table_name column_name : pyname) :
  get_user db name = Some user ->
  role user <> "admin" ->
  check_access db name table_name column_name
  = (truthy column_name
     && existsb (column_grant_row (user_id user) table_name column_name)
                (access_control db))
    || existsb (table_grant_row (user_id user) table_name) (access_control db).
Proof.
  intros Hu Hr. unfold check_access. rewrite Hu, (role_not_admin _ Hr).
  now destruct (truthy column_name && _).
Qed.

(** C3: for a principal that is not an admin, a table [t] and a column
    that is absent or has a non-empty name, [check_access] grants exactly
    when the principal has a grant record on [t] with that very column or
    with no column; an admin is granted everything; and without a record
    whose table name equals [t] nothing is granted, whatever other names
    the principal's records carry. *)
Theorem check_access_iff_grant :
  (forall db name user t c,
      get_user db name = Some user ->
      role user <> "admin" ->
      c <> Some EmptyString ->
      (check_access db name (Some t) c = true
       <-> exists r, In r (access_control db)
                     /\ ac_user_id r = user_id user
                     /\ ac_table_name r = t
                     /\ (ac_column_name r = c \/ ac_column_name r = None)))
  /\ (forall db name user t c,
         get_user db name = Some user ->
         role user = "admin" ->
         check_access db name t c = true)
  /\ (forall db name user t c,
         get_user db name = Some user ->
         role user <> "admin" ->
         (forall r, In r (access_control db) ->
                    ac_user_id r = user_id user -> ac_table_name r <> t) ->
         check_access db name (Some t) c = false).
Proof.
  split; [|split].
  - intros db name user t c Hu Hr Hc.
    rewrite (check_access_non_admin _ _ _ _ _ Hu Hr), orb_true_iff,
      andb_true_iff, !existsb_exists.
    split.
    + intros [[_ (r & Hin & Hrow)] | (r & Hin & Hrow)].
      * destruct c as [c|]; [|unfold column_grant_row in Hrow;
            rewrite !andb_true_iff in Hrow;
            destruct Hrow as [_ Hrow]; unfold sql_eq_nullable in Hrow;
            destruct (ac_column_name r); discriminate Hrow].
        apply column_grant_row_spec in Hrow. exists r. intuition.
      * apply table_grant_row_spec in Hrow. exists r. intuition.
    + intros (r & Hin & Hid & Ht & [Hcol | Hcol]).
      * destruct c as [c|].
        -- left. split.
           ++ simpl. apply negb_true_iff, String.eqb_neq. congruence.
           ++ exists r. split; [exact Hin|]. now apply column_grant_row_spec.
        -- right. exists r. split; [exact Hin|]. now apply table_grant_row_spec.
      * right. exists r. split; [exact Hin|]. now apply table_grant_row_spec.
  - intros db name user t c Hu Hr. unfold check_access. rewrite Hu, Hr.
    reflexivity.
  - intros db name user t c Hu Hr Hnone.
    rewrite (check_access_non_admin _ _ _ _ _ Hu Hr).
    apply orb_false_iff. split.
    + apply andb_false_iff. right.
      apply not_true_iff_false. rewrite existsb_exists.
      intros (r & Hin & Hrow). unfold column_grant_row in Hrow.
      rewrite !andb_true_iff, Z.eqb_eq in Hrow.
      destruct Hrow as [[Hid Ht] _]. apply String.eqb_eq in Ht.
      exact (Hnone r Hin Hid Ht).
    + apply not_true_iff_false. rewrite existsb_exists.
      intros (r & Hin & Hrow). apply table_grant_row_spec in Hrow.
      destruct Hrow as (Hid & Ht & _). exact (Hnone r Hin Hid Ht).
Qed.

Lemma check_access_iff_grant_witness :
  check_access Scenario.unsecured_db "viewer" (Some "employees") (Some "name")
  = true
  /\ check_access Scenario.unsecured_db "admin" (Some "employees") (Some "ssn")
     = true
  /\ check_access Scenario.unsecured_db "viewer" (Some "employee") (Some "name")
     = false.
Proof.
  destruct check_access_iff_grant as (Hiff & Hadmin & Hnone).
  split; [|split].
  - apply (Hiff Scenario.unsecured_db "viewer"
                {| user_id := 3; username := "viewer"; role := "viewer" |}
                "employees" (Some "name"));
      [reflexivity | discriminate | discriminate |].
    eexists. split; [right; right; left; reflexivity|].
    repeat split. now left.
  - apply (Hadmin Scenario.unsecured_db "admin"
                  {| user_id := 1; username := "admin"; role := "admin" |});
      reflexivity.
  - apply (Hnone Scenario.unsecured_db "viewer"
                 {| user_id := 3; username := "viewer"; role := "viewer" |});
      [reflexivity | discriminate |].
    intros r [<- | [<- | [<- | []]]]; simpl; discriminate.
Defined.

(** an empty column name is no column: the check is the table's *)
Lemma check_access_empty_column (db : database) (name : string)
      (table_name : pyname) :
  check_access db name table_name (Some EmptyString)
  = check_access db name table_name None.
Proof. reflexivity. Qed.

Lemma check_access_unknown_user (db : database) (name : string)
      (table_name column_name : pyname) :
  get_user db name = None ->
  check_access db name table_name column_name = false.
Proof. intros Hu. unfold check_access. now rewrite Hu. Qed.

(** names that extend or shorten a granted name are not granted *)
Example check_access_no_partial_match :
  check_access Scenario.unsecured_db "viewer" (Some "employees") (Some "nam")
  = false
  /\ check_access Scenario.unsecured_db "viewer" (Some "employees")
                  (Some "name2") = false
  /\ check_access Scenario.unsecured_db "viewer" (Some "employees_archive")
                  (Some "name") = false
  /\ check_access Scenario.unsecured_db "viewer" (Some "employees") None
     = false.
Proof. repeat split. Qed.

End Authorization.

(** ** Grants are upserts *)

Section Grants.

Lemma same_grant_tuple_update (uid : Z) (t : string) (c : pyname)
      (id : Z) (level : string) (now : Z) (r : access_row) :
  same_grant_tuple uid t c (update_grant id level now r)
  = same_grant_tuple uid t c r.
Proof. unfold update_grant. now destruct (Z.eqb (access_id r) id). Qed.

Lemma filter_map_update (uid : Z) (t : string) (c : pyname)
      (id : Z) (level : string) (now : Z) (rows : list access_row) :
  filter (same_grant_tuple uid t c) (map (update_grant id level now) rows)
  = map (update_grant id level now) (filter (same_grant_tuple uid t c) rows).
Proof.
  induction rows as [|r rows IH]; [reflexivity|]. simpl.
  rewrite same_grant_tuple_update.
  destruct (same_grant_tuple uid t c r); simpl; now rewrite IH.
Qed.

Lemma same_grant_tuple_new (uid : Z) (t : string) (c : pyname)
      (id : Z) (level : string) (now : Z) :
  same_grant_tuple uid t c
    {| access_id := id; ac_user_id := uid; ac_table_name := t;
       ac_column_name := c; access_level := level; granted_at := now |}
  = true.
Proof.
  unfold same_grant_tuple. simpl.
  rewrite Z.eqb_refl, String.eqb_refl. simpl.
  destruct c as [c|]; simpl; [now rewrite String.eqb_refl | reflexivity].
Qed.

(** One grant on a tuple that has at most one record leaves exactly one,
    carrying the new level and time; users are untouched. *)
Lemma grant_access_single (db : database) (name : string) (user : user_row)
      (t : string) (c : pyname) (level : string) (now : Z) :
  get_user db name = Some user ->
  List.length (grants_of db (user_id user) t c) <= 1 ->
  exists db' r,
    grant_access db name t c level now = Ok db'
    /\ get_user db' name = Some user
    /\ grants_of db' (user_id user) t c = [r]
    /\ access_level r = level /\ granted_at r = now.
Proof.
  intros Hu Hlen. unfold grant_access. rewrite Hu.
  unfold grants_of in *.
  destruct (filter _ (access_control db)) as [|first rest] eqn:Ef.
  - eexists. eexists. split; [reflexivity|]. split; [exact Hu|].
    simpl. rewrite filter_app, Ef. simpl. rewrite same_grant_tuple_new.
    repeat split.
  - destruct rest as [|second rest]; [|simpl in Hlen; lia].
    eexists. eexists. split; [reflexivity|]. split; [exact Hu|].
    simpl. rewrite filter_map_update, Ef. simpl.
    unfold update_grant. rewrite Z.eqb_refl. repeat split.
Qed.

Lemma grant_many_app (db : database) (name t : string) (c : pyname)
      (g1 g2 : list (string * Z)) :
  grant_many db name t c (g1 ++ g2)
  = (db' <- grant_many db name t c g1 ;; grant_many db' name t c g2).
Proof.
  revert db; induction g1 as [|[level now] g1 IH]; intros db; simpl;
    [reflexivity|].
  destruct (grant_access db name t c level now) as [db'|e]; simpl;
    [apply IH | reflexivity].
Qed.

Lemma grant_many_keeps_invariant (grants : list (string * Z)) :
  forall db name user t c,
    get_user db name = Some user ->
    List.length (grants_of db (user_id user) t c) <= 1 ->
    exists db',
      grant_many db name t c grants = Ok db'
      /\ get_user db' name = Some user
      /\ List.length (grants_of db' (user_id user) t c) <= 1.
Proof.
  induction grants as [|[level now] grants IH]; intros db name user t c Hu Hlen.
  - exists db. repeat split; assumption.
  - destruct (grant_access_single db name user t c level now Hu Hlen)
      as (db1 & r & Hg & Hu1 & Hrows & _).
    simpl. rewrite Hg. simpl. apply IH; [exact Hu1|].
    rewrite Hrows. simpl. lia.
Qed.

(** C9: for an existing principal whose tuple has at most one grant
    record, any number of grants on that tuple succeed and leave exactly
    one record for it, with the level and the time stamp of the last
    grant. *)
Theorem grant_access_upsert (db : database) (name : string)
        (user : user_row) (t : string) (c : pyname)
        (grants : list (string * Z)) (level : string) (now : Z) :
  get_user db name = Some user ->
  List.length (grants_of db (user_id user) t c) <= 1 ->
  exists db' r,
    grant_many db name t c (grants ++ [(level, now)]) = Ok db'
    /\ grants_of db' (user_id user) t c = [r]
    /\ access_level r = level /\ granted_at r = now.
Proof.
  intros Hu Hlen.
  destruct (grant_many_keeps_invariant grants db name user t c Hu Hlen)
    as (db1 & Hg1 & Hu1 & Hlen1).
  destruct (grant_access_single db1 name user t c level now Hu1 Hlen1)
    as (db2 & r & Hg2 & _ & Hrows & Hlevel & Hnow).
  exists db2, r. rewrite grant_many_app, Hg1. simpl. rewrite Hg2.
  repeat split; assumption.
Qed.

Lemma grant_access_upsert_witness :
  exists db' r,
    grant_many Scenario.unsecured_db "analyst" "employees" (Some "salary")
               ([("read", 10%Z); ("write", 20%Z)] ++ [("read", 30%Z)]) = Ok db'
    /\ grants_of db' 2 "employees" (Some "salary") = [r]
    /\ access_level r = "read" /\ granted_at r = 30%Z.
Proof.
  apply (grant_access_upsert Scenario.unsecured_db "analyst"
           {| user_id := 2; username := "analyst"; role := "analyst" |}
           "employees" (Some "salary") [("read", 10%Z); ("write", 20%Z)]
           "read" 30%Z).
  - reflexivity.
  - simpl. lia.
Defined.

Lemma same_grant_tuple_eq (uid uid' : Z) (t t' : string) (c c' : pyname)
      (id : Z) (level : string) (now : Z) :
  same_grant_tuple uid' t' c'
    {| access_id := id; ac_user_id := uid; ac_table_name := t;
       ac_column_name := c; access_level := level; granted_at := now |}
  = true ->
  uid' = uid /\ t' = t /\ c' = c.
Proof.
  unfold same_grant_tuple. simpl.
  rewrite !andb_true_iff, Z.eqb_eq, String.eqb_eq. intros [[-> ->] Hc].
  repeat split.
  destruct c as [c|], c' as [c'|]; simpl in Hc; try discriminate Hc;
    [|reflexivity].
  rewrite orb_false_r in Hc. apply String.eqb_eq in Hc. now subst.
Qed.

(** The invariant is inductive: a grant keeps every tuple at one record at
    most, so every table built by grants from an empty one satisfies it. *)
Lemma grant_access_preserves_uniqueness (db db' : database) (name : string)
      (t : string) (c : pyname) (level : string) (now : Z) :
  grants_unique db ->
  grant_access db name t c level now = Ok db' ->
  grants_unique db'.
Proof.
  intros Hinv Hgrant uid' t' c'. unfold grant_access in Hgrant.
  destruct (get_user db name) as [user|]; [|discriminate Hgrant].
  destruct (filter _ (access_control db)) as [|first rest] eqn:Ef;
    injection Hgrant as <-; unfold grants_of; simpl.
  - rewrite filter_app, length_app. simpl.
    destruct (same_grant_tuple uid' t' c' _) eqn:Enew.
    + apply same_grant_tuple_eq in Enew. destruct Enew as (-> & -> & ->).
      rewrite Ef. simpl. lia.
    + simpl. rewrite Nat.add_0_r. apply Hinv.
  - rewrite filter_map_update, length_map. apply Hinv.
Qed.

Lemma no_grants_unique (db : database) :
  access_control db = [] -> grants_unique db.
Proof. intros Hempty uid t c. unfold grants_of. rewrite Hempty. simpl. lia. Qed.

(** A tuple without a record is in the state the theorem asks for. *)
Lemma fresh_tuple_has_no_grant (db : database) (uid : Z) (t : string)
      (c : pyname) :
  access_control db = [] -> List.length (grants_of db uid t c) <= 1.
Proof. unfold grants_of. intros ->. simpl. lia. Qed.

(** An unknown principal is refused, and no datastore comes back. *)
Lemma grant_access_unknown_user (db : database) (name t : string)
      (c : pyname) (level : string) (now : Z) :
  get_user db name = None ->
  grant_access db name t c level now
  = Raise (ValueError ("user '" ++ name ++ "' does not exist")).
Proof. intros Hu. unfold grant_access. now rewrite Hu. Qed.

End Grants.

(** ** The gateway *)

Section Gateway.

Variable env : Collaborators.

(** C6: when [validate_permissions] denies, [execute_query] returns a
    failure that carries the reason as its message and the whole list of
    denied items, leaves the datastore as it was and hands it no
    statement. *)
Theorem execute_query_denied (db : database) (name sql : string)
        (parsed : parsed_query) :
  parse_query (sqlparse_parse env) sql = Ok parsed ->
  allowed (validate_permissions db name (q_tables parsed)
                                (expand_wildcard db (q_tables parsed)
                                                (q_columns parsed))) = false ->
  execute_query env db name sql
  = ({| success := false; data := [];
        message := reason (validate_permissions db name (q_tables parsed)
                                                (expand_wildcard db (q_tables parsed)
                                                (q_columns parsed)));
        denied_items :=
          Some (v_denied_items
                  (validate_permissions db name (q_tables parsed)
                                        (expand_wildcard db (q_tables parsed)
                                                (q_columns parsed))));
        columns := [] |}, db, []).
Proof.
  intros Hparse Hdenied. unfold execute_query. rewrite Hparse.
  cbv beta iota zeta. rewrite Hdenied. reflexivity.
Qed.

(** the denial list is everything the two loops collected *)
Lemma validate_permissions_items (db : database) (name : string)
      (user : user_row) (tables columns : list pyname) :
  get_user db name = Some user ->
  role user <> "admin" ->
  v_denied_items (validate_permissions db name tables columns)
  = (flat_map (table_denial db name) tables
     ++ match columns with
        | [] => []
        | _ :: _ =>
          if negb (has_star columns) then
            flat_map (fun table =>
                        flat_map (column_denial db name table) columns)
                     tables
          else []
        end)%list.
Proof.
  intros Hu Hr. unfold validate_permissions.
  rewrite Hu, (role_not_admin _ Hr).
  now destruct (_ ++ _)%list.
Qed.

(** the decision is ALLOW exactly when nothing was collected *)
Lemma validate_permissions_allowed_iff (db : database) (name : string)
      (user : user_row) (tables columns : list pyname) :
  get_user db name = Some user ->
  role user <> "admin" ->
  (allowed (validate_permissions db name tables columns) = true
   <-> v_denied_items (validate_permissions db name tables columns) = []).
Proof.
  intros Hu Hr. unfold validate_permissions.
  rewrite Hu, (role_not_admin _ Hr).
  destruct (_ ++ _)%list; simpl; split; easy.
Qed.

Lemma validate_permissions_no_tables (db : database) (name : string)
      (user : user_row) (columns : list pyname) :
  get_user db name = Some user ->
  allowed (validate_permissions db name [] columns) = true.
Proof.
  intros Hu. unfold validate_permissions. rewrite Hu.
  destruct (String.eqb (role user) "admin"); [reflexivity|].
  simpl. destruct columns; [reflexivity|].
  now destruct (negb _).
Qed.

(** C1, as the code has it: an exception of the extraction, or an unknown
    principal, gives a failure and hands the datastore nothing; an empty
    table list of an existing principal passes authorization and the
    statement is handed to the datastore. *)
Theorem execute_query_unresolved_tables (db : database) (name sql : string) :
  (forall e,
      parse_query (sqlparse_parse env) sql = Raise e ->
      execute_query env db name sql
      = ({| success := false; data := [];
            message := "failed to parse query: " ++ Py.exn_str e;
            denied_items := None; columns := [] |}, db, []))
  /\ (forall parsed,
         parse_query (sqlparse_parse env) sql = Ok parsed ->
         get_user db name = None ->
         execute_query env db name sql
         = ({| success := false; data := [];
               message := "user '" ++ name ++ "' does not exist";
               denied_items := Some []; columns := [] |}, db, []))
  /\ (forall parsed user,
         parse_query (sqlparse_parse env) sql = Ok parsed ->
         q_tables parsed = [] ->
         get_user db name = Some user ->
         snd (execute_query env db name sql) = [sql]).
Proof.
  split; [|split].
  - intros e Hparse. unfold execute_query. now rewrite Hparse.
  - intros parsed Hparse Hu. unfold execute_query. rewrite Hparse.
    cbv beta iota zeta. unfold validate_permissions. rewrite Hu. reflexivity.
  - intros parsed user Hparse Htables Hu. unfold execute_query.
    rewrite Hparse. cbv beta iota zeta. rewrite Htables.
    rewrite (validate_permissions_no_tables db name user _ Hu).
    simpl. now destruct (datastore_execute env sql db).
Qed.

End Gateway.

Lemma execute_query_unresolved_tables_witness :
  snd (execute_query Scenario.env Scenario.employees_db "analyst" "SELECT 1")
  = ["SELECT 1"]
  /\ execute_query Scenario.env Scenario.employees_db "analyst" EmptyString
     = ({| success := false; data := [];
           message := "failed to parse query: tuple index out of range";
           denied_items := None; columns := [] |},
        Scenario.employees_db, []).
Proof.
  destruct (execute_query_unresolved_tables Scenario.env Scenario.employees_db
              "analyst" "SELECT 1") as (_ & _ & Hrun).
  destruct (execute_query_unresolved_tables Scenario.env Scenario.employees_db
              "analyst" EmptyString) as (Hraise & _ & _).
  split.
  - apply (Hrun {| q_type := Some "SELECT"; q_tables := []; q_columns := [] |}
                {| user_id := 2; username := "analyst"; role := "analyst" |});
      reflexivity.
  - apply (Hraise (IndexError "tuple index out of range")). reflexivity.
Defined.

(** C1 as stated fails: [SELECT 1] has no table reference, and the analyst's
    query succeeds after the statement went to the datastore. *)
Lemma execute_query_not_fail_closed :
  exists parsed,
    parse_query (sqlparse_parse Scenario.env) "SELECT 1" = Ok parsed
    /\ q_tables parsed = []
    /\ success (fst (fst (execute_query Scenario.env Scenario.employees_db
                                        "analyst" "SELECT 1"))) = true
    /\ snd (execute_query Scenario.env Scenario.employees_db
                          "analyst" "SELECT 1") = ["SELECT 1"].
Proof. eexists. repeat split. Qed.

Lemma execute_query_denied_witness :
  execute_query Scenario.env Scenario.employees_db "viewer"
                "SELECT name, ssn FROM employees"
  = ({| success := false; data := [];
        message := "insufficient permissions";
        denied_items :=
          Some ["no access to table 'employees'";
                "no access to column 'employees.ssn'"];
        columns := [] |}, Scenario.employees_db, []).
Proof.
  apply (execute_query_denied Scenario.env Scenario.employees_db "viewer"
           "SELECT name, ssn FROM employees"
           {| q_type := Some "SELECT"; q_tables := [Some "employees"];
              q_columns := [Some "name"; Some "ssn"] |});
    reflexivity.
Defined.

(** ** Result transformation *)

Section Transformation.

Variable env : Collaborators.

Lemma dict_get_set_same (d : row) (k : string) (v : Py.value) :
  dict_get (dict_set d k v) k = Ok v.
Proof.
  induction d as [|[k' v'] d IH]; simpl.
  - now rewrite String.eqb_refl.
  - destruct (String.eqb k' k) eqn:E; simpl.
    + now rewrite String.eqb_refl.
    + now rewrite E.
Qed.

Lemma dict_get_set_other (d : row) (k k' : string) (v : Py.value) :
  k <> k' -> dict_get (dict_set d k v) k' = dict_get d k'.
Proof.
  intros Hk. induction d as [|[k0 v0] d IH]; simpl.
  - apply String.eqb_neq in Hk. now rewrite Hk.
  - destruct (String.eqb k0 k) eqn:E; simpl.
    + apply String.eqb_eq in E. subst k0.
      apply String.eqb_neq in Hk. now rewrite Hk.
    + destruct (String.eqb k0 k'); [reflexivity | exact IH].
Qed.

(** a cell whose decryption raises becomes the sentinel *)
Lemma transform_cell_decryption_error (db : database) (name : string)
      (tables : list pyname) (col_name : string) (v : Py.value)
      (table : pyname) (e : Py.exn) :
  find (fun table => is_column_encrypted db table (Some col_name)) tables
  = Some table ->
  check_access db name table (Some col_name) = true ->
  decrypt_value (cryptography env) (master_passphrase env) db v table
                (Some col_name) = Raise e ->
  transform_cell env db name tables col_name v = VStr "[decryption error]".
Proof.
  intros Hfind Hacc Hdec. unfold transform_cell.
  now rewrite Hfind, Hacc, Hdec.
Qed.

(** the other outcomes of a cell *)
Lemma transform_cell_decrypted (db : database) (name : string)
      (tables : list pyname) (col_name : string) (v plain : Py.value)
      (table : pyname) :
  find (fun table => is_column_encrypted db table (Some col_name)) tables
  = Some table ->
  check_access db name table (Some col_name) = true ->
  decrypt_value (cryptography env) (master_passphrase env) db v table
                (Some col_name) = Ok plain ->
  transform_cell env db name tables col_name v = plain.
Proof.
  intros Hfind Hacc Hdec. unfold transform_cell.
  now rewrite Hfind, Hacc, Hdec.
Qed.

Lemma transform_cell_masked (db : database) (name : string)
      (tables : list pyname) (col_name : string) (v : Py.value)
      (table : pyname) :
  find (fun table => is_column_encrypted db table (Some col_name)) tables
  = Some table ->
  check_access db name table (Some col_name) = false ->
  transform_cell env db name tables col_name v
  = mask_value v (VStr "partial").
Proof. intros Hfind Hacc. unfold transform_cell. now rewrite Hfind, Hacc. Qed.

Lemma transform_cell_plain (db : database) (name : string)
      (tables : list pyname) (col_name : string) (v : Py.value) :
  find (fun table => is_column_encrypted db table (Some col_name)) tables
  = None ->
  transform_cell env db name tables col_name v = v.
Proof. intros Hfind. unfold transform_cell. now rewrite Hfind. Qed.

(** a row that has every requested key is transformed, whatever its
    cells do *)
Lemma transform_row_total (db : database) (name : string)
      (tables : list pyname) (r : row) (column_names : list string) :
  forall acc,
    (forall col, In col column_names -> exists v, dict_get r col = Ok v) ->
    exists out,
      transform_row env db name tables column_names r acc = Ok out.
Proof.
  induction column_names as [|col rest IH]; intros acc Hkeys; simpl.
  - now exists acc.
  - destruct (Hkeys col (or_introl eq_refl)) as [v Hv]. rewrite Hv. simpl.
    apply IH. intros col' Hin. apply Hkeys. now right.
Qed.

Lemma transform_row_cells (db : database) (name : string)
      (tables : list pyname) (r : row) (column_names : list string) :
  forall acc out,
    transform_row env db name tables column_names r acc = Ok out ->
    forall col v,
      dict_get r col = Ok v ->
      In col column_names
      \/ dict_get acc col = Ok (transform_cell env db name tables col v) ->
      dict_get out col = Ok (transform_cell env db name tables col v).
Proof.
  induction column_names as [|c rest IH]; intros acc out Hrun col v Hv Hcol;
    simpl in Hrun.
  - injection Hrun as <-. destruct Hcol as [[] | H]; exact H.
  - destruct (dict_get r c) as [value|e] eqn:Hc; [|discriminate Hrun].
    simpl in Hrun. apply (IH _ _ Hrun col v Hv).
    destruct (in_dec string_dec col rest) as [Hin | Hnin]; [now left | right].
    destruct (string_dec c col) as [-> | Hne].
    + rewrite Hv in Hc. injection Hc as <-. apply dict_get_set_same.
    + rewrite dict_get_set_other by exact Hne.
      destruct Hcol as [[Heq | Hin] | Hacc];
        [contradiction | contradiction | exact Hacc].
Qed.

Lemma map_result_Forall2 {A B} (f : A -> Py.result B) (l : list A) :
  (forall a, In a l -> exists b, f a = Ok b) ->
  exists l', map_result f l = Ok l' /\ Forall2 (fun a b => f a = Ok b) l l'.
Proof.
  induction l as [|a l IH]; intros Hok; simpl.
  - exists []. split; [reflexivity | constructor].
  - destruct (Hok a (or_introl eq_refl)) as [b Hb].
    destruct IH as (l' & Hl' & Hall); [intros a' Hin; apply Hok; now right|].
    exists (b :: l'). rewrite Hb, Hl'. split; [reflexivity|].
    now constructor.
Qed.

(** C7: once a query is authorized and the datastore answers with rows
    that all carry the columns of the first one, [execute_query] succeeds
    and returns one row per row of the answer; every cell is the
    transformed cell of the answer, and a cell of a secured, granted
    column whose decryption raises, for whatever exception, is
    ['[decryption error]']. *)
Theorem execute_query_decryption_error (db db' : database)
        (name sql : string) (parsed : parsed_query) (results : list row) :
  parse_query (sqlparse_parse env) sql = Ok parsed ->
  allowed (validate_permissions db name (q_tables parsed)
             (expand_wildcard db (q_tables parsed) (q_columns parsed)))
  = true ->
  datastore_execute env sql db = (Ok results, db') ->
  (forall r col, In r results -> In col (result_keys results) ->
                 exists v, dict_get r col = Ok v) ->
  exists res,
    execute_query env db name sql = (res, db', [sql])
    /\ success res = true
    /\ Forall2
         (fun r r' =>
            forall col v,
              In col (result_keys results) ->
              dict_get r col = Ok v ->
              dict_get r' col
              = Ok (transform_cell env db' name (q_tables parsed) col v)
              /\ forall table e,
                  find (fun table =>
                          is_column_encrypted db' table (Some col))
                       (q_tables parsed) = Some table ->
                  check_access db' name table (Some col) = true ->
                  decrypt_value (cryptography env) (master_passphrase env)
                                db' v table (Some col) = Raise e ->
                  dict_get r' col = Ok (VStr "[decryption error]"))
         results (data res).
Proof.
  intros Hparse Hallowed Hrun Hkeys.
  unfold execute_query. rewrite Hparse. cbv beta iota zeta.
  rewrite Hallowed, Hrun. simpl negb. cbv iota. simpl bind.
  destruct results as [|first rest].
  - simpl. eexists. split; [reflexivity|]. split; [reflexivity|].
    constructor.
  - unfold transform_results.
    set (results := first :: rest) in *.
    set (keys := result_keys results) in *.
    destruct (map_result_Forall2
                (fun r => transform_row env db' name (q_tables parsed)
                                        keys r []) results)
      as (rows' & Hrows & Hall).
    { intros r Hin. apply transform_row_total.
      intros col Hcol. now apply Hkeys. }
    rewrite Hrows. simpl. eexists. split; [reflexivity|].
    split; [reflexivity|]. simpl.
    eapply Forall2_impl; [|exact Hall].
    intros r r' Hr col v Hcol Hv.
    assert (Hcell : dict_get r' col
                    = Ok (transform_cell env db' name (q_tables parsed)
                                         col v)).
    { apply (transform_row_cells _ _ _ _ _ _ _ Hr col v Hv). now left. }
    split; [exact Hcell|].
    intros table e Hfind Hacc Hdec. rewrite Hcell. f_equal.
    now apply (transform_cell_decryption_error _ _ _ _ _ table e).
Qed.

End Transformation.

Lemma execute_query_decryption_error_witness :
  exists res,
    execute_query Scenario.damaged_env Scenario.employees_db "analyst"
                  "SELECT name, ssn FROM employees"
    = (res, Scenario.employees_db, ["SELECT name, ssn FROM employees"])
    /\ success res = true
    /\ List.length (data res) = 3.
Proof.
  destruct (execute_query_decryption_error
              Scenario.damaged_env Scenario.employees_db Scenario.employees_db
              "analyst" "SELECT name, ssn FROM employees"
              {| q_type := Some "SELECT"; q_tables := [Some "employees"];
                 q_columns := [Some "name"; Some "ssn"] |}
              Scenario.damaged_rows)
    as (res & Hres & Hok & Hrows).
  - reflexivity.
  - reflexivity.
  - reflexivity.
  - intros r col [<- | [<- | [<- | []]]] [<- | [<- | []]];
      eexists; reflexivity.
  - exists res. split; [exact Hres|]. split; [exact Hok|].
    symmetry. exact (Forall2_length Hrows).
Defined.

(** the run behind the witness: two cells fail to decrypt, one decrypts *)
Example execute_query_damaged_rows :
  fst (fst (execute_query Scenario.damaged_env Scenario.employees_db "analyst"
                          "SELECT name, ssn FROM employees"))
  = {| success := true;
       data :=
         [[("name", VStr "john smith"); ("ssn", VStr "[decryption error]")];
          [("name", VStr "jane doe"); ("ssn", VStr "987-65-4321")];
          [("name", VStr "bob johnson"); ("ssn", VStr "[decryption error]")]];
       message := "query executed successfully, 3 rows returned";
       denied_items := None;
       columns := ["name"; "ssn"] |}.
Proof. vm_compute. reflexivity. Qed.

(** ** The scenario of the engine test *)

Section AnalystScenario.

Lemma table_grant_covers_column (db : database) (name : string)
      (table column : pyname) :
  check_access db name table None = true ->
  check_access db name table column = true.
Proof.
  unfold check_access. destruct (get_user db name) as [user|]; [|easy].
  destruct (String.eqb (role user) "admin"); [easy|].
  simpl. intros ->. now destruct (truthy column && _).
Qed.

Lemma append_cancel_l (p a b : string) : p ++ a = p ++ b -> a = b.
Proof.
  induction p as [|c p IH]; simpl; [easy|]. intros H. injection H as H.
  now apply IH.
Qed.

Lemma split_employees_ssn (x y : string) :
  x ++ "." ++ y ++ "'" = "employees.ssn'" -> x = "employees" /\ y = "ssn".
Proof.
  intros H.
  do 9 (destruct x as [|? x]; simpl in H; [discriminate H|];
        injection H as -> H).
  destruct x as [|? x]; simpl in H.
  - injection H as H. split; [reflexivity|].
    do 3 (destruct y as [|? y]; simpl in H; [discriminate H|];
          injection H as -> H).
    destruct y as [|? y]; simpl in H; [reflexivity|].
    injection H as -> H. destruct y; discriminate H.
  - injection H as -> H. exfalso.
    repeat (destruct x as [|? x]; simpl in H; [discriminate H|];
            injection H as -> H).
    destruct x; discriminate H.
Qed.

(** Under a table-wide grant on [employees], no query of the principal is
    ever denied for the column [employees.ssn], whatever the parser
    answers. *)
Lemma table_grant_never_denies_ssn (db : database) (name : string)
      (tables columns : list pyname) :
  check_access db name (Some "employees") None = true ->
  ~ In "no access to column 'employees.ssn'"
       (v_denied_items (validate_permissions db name tables columns)).
Proof.
  intros Hgrant Hin. unfold validate_permissions in Hin.
  destruct (get_user db name) as [user|]; [|exact Hin].
  destruct (String.eqb (role user) "admin"); [exact Hin|].
  assert (Hitems : In "no access to column 'employees.ssn'"
             (flat_map (table_denial db name) tables
              ++ match columns with
                 | [] => []
                 | _ :: _ =>
                   if negb (has_star columns) then
                     flat_map (fun table =>
                                 flat_map (column_denial db name table)
                                          columns) tables
                   else []
                 end)%list).
  { destruct (_ ++ _)%list; exact Hin. }
  clear Hin. apply in_app_or in Hitems. destruct Hitems as [Ht | Hc].
  - apply in_flat_map in Ht. destruct Ht as (table & _ & Ht).
    unfold table_denial in Ht.
    destruct (negb (table_exists db table));
      [destruct Ht as [Ht | []]; discriminate Ht|].
    destruct (negb (check_access db name table None));
      [destruct Ht as [Ht | []]; discriminate Ht | exact Ht].
  - destruct columns as [|c0 cs]; [exact Hc|].
    destruct (negb (has_star (c0 :: cs))); [|exact Hc].
    apply in_flat_map in Hc. destruct Hc as (table & _ & Hc).
    apply in_flat_map in Hc. destruct Hc as (column & _ & Hc).
    unfold column_denial in Hc.
    destruct (check_access db name table column) eqn:Hacc; [exact Hc|].
    destruct Hc as [Hc | []].
    change "no access to column 'employees.ssn'"
      with ("no access to column '" ++ "employees.ssn'") in Hc.
    apply append_cancel_l, split_employees_ssn in Hc.
    destruct Hc as [Htable Hcolumn].
    destruct table as [t|]; [|discriminate Htable].
    simpl in Htable. subst t.
    rewrite (table_grant_covers_column _ _ _ _ Hgrant) in Hacc.
    discriminate Hacc.
Qed.

(** C2 on the code: the analyst of the scenario, holding the table-wide
    grant on [employees] and the column grant on [employees.salary], runs
    [SELECT name, ssn FROM employees] with success: nothing is denied, the
    statement is executed and the secured [ssn] cells come back
    decrypted. *)
Theorem analyst_reads_ssn :
  execute_query Scenario.env Scenario.employees_db "analyst"
                "SELECT name, ssn FROM employees"
  = ({| success := true;
        data :=
          [[("name", VStr "john smith"); ("ssn", VStr "123-45-6789")];
           [("name", VStr "jane doe"); ("ssn", VStr "987-65-4321")]];
        message := "query executed successfully, 2 rows returned";
        denied_items := None;
        columns := ["name"; "ssn"] |},
     Scenario.employees_db, ["SELECT name, ssn FROM employees"])
  /\ is_column_encrypted Scenario.employees_db (Some "employees") (Some "ssn")
     = true
  /\ check_access Scenario.employees_db "analyst" (Some "employees")
                  (Some "ssn") = true.
Proof. vm_compute. repeat split. Qed.

(** so the failure the specification expects for the analyst cannot come
    out of [execute_query], for any parser and any datastore *)
Lemma table_grant_excludes_ssn_denial (env : Collaborators) (db : database)
      (name sql : string) :
  check_access db name (Some "employees") None = true ->
  denied_items (fst (fst (execute_query env db name sql)))
  <> Some ["no access to column 'employees.ssn'"].
Proof.
  intros Hgrant. unfold execute_query.
  destruct (parse_query (sqlparse_parse env) sql) as [parsed|e];
    [|discriminate].
  cbv beta iota zeta.
  destruct (negb (allowed _)).
  - simpl. intros [= H].
    apply (table_grant_never_denies_ssn db name (q_tables parsed)
             (expand_wildcard db (q_tables parsed) (q_columns parsed))
             Hgrant).
    rewrite H. now left.
  - destruct (datastore_execute env sql db) as [[results|e] db']; simpl;
      [|discriminate].
    unfold transform_results. destruct results as [|first rest];
      [discriminate|].
    destruct (map_result _ _); discriminate.
Qed.

(** without the table-wide grant the same query is denied, with more than
    the one item *)
Example viewer_denied_ssn :
  denied_items
    (fst (fst (execute_query Scenario.env Scenario.employees_db "viewer"
                             "SELECT name, ssn FROM employees")))
  = Some ["no access to table 'employees'";
          "no access to column 'employees.ssn'"].
Proof. vm_compute. reflexivity. Qed.

End AnalystScenario.

(** ** Encryption round trip *)

Module TestLibsLaws.

Import TestLibs.

Lemma decode_pair_encode (b : Byte.byte) :
  decode_pair (letter (Byte.to_nat b / 16)) (letter (Byte.to_nat b mod 16))
  = Some b.
Proof. destruct b; vm_compute; reflexivity. Qed.

Lemma decode_encode (data : bytes) : decode (encode data) = Ok data.
Proof.
  induction data as [|b data IH]; [reflexivity|].
  change (encode (b :: data))
    with (letter (Byte.to_nat b / 16) :: letter (Byte.to_nat b mod 16)
                 :: encode data).
  cbn [decode]. rewrite decode_pair_encode. fold decode. rewrite IH.
  reflexivity.
Qed.

Lemma letters_are_ascii (b : Byte.byte) :
  PyStr.ascii_only (string_of_list_byte (encode_byte b)) = true.
Proof. destruct b; vm_compute; reflexivity. Qed.

Lemma encode_is_ascii (data : bytes) :
  PyStr.ascii_only (string_of_list_byte (encode data)) = true.
Proof.
  induction data as [|b data IH]; [reflexivity|].
  pose proof (letters_are_ascii b) as Hb.
  change (encode (b :: data))
    with (letter (Byte.to_nat b / 16) :: letter (Byte.to_nat b mod 16)
                 :: encode data).
  unfold encode_byte in Hb. cbn [string_of_list_byte map string_of_list_ascii
                                  PyStr.ascii_only] in *.
  apply andb_true_iff in Hb. destruct Hb as [H1 H2].
  apply andb_true_iff in H2. destruct H2 as [H2 _].
  rewrite H1, H2. exact IH.
Qed.

Lemma encode_length (data : bytes) :
  List.length (encode data) = 2 * List.length data.
Proof.
  induction data as [|b data IH]; [reflexivity|].
  change (encode (b :: data))
    with (letter (Byte.to_nat b / 16) :: letter (Byte.to_nat b mod 16)
                 :: encode data).
  simpl List.length. rewrite IH. lia.
Qed.

Lemma laws : CryptographyLaws libs.
Proof.
  constructor; unfold libs;
    cbn [fernet_key_ok fernet_encrypt fernet_decrypt pbkdf2_derive b64encode
         urlsafe_b64encode b64decode str_encode bytes_decode].
  - intros key entropy data _. now rewrite rev_involutive.
  - intros seed Hseed. rewrite encode_length, Hseed. reflexivity.
  - intros salt passphrase.
    rewrite length_firstn, !length_app, repeat_length. lia.
  - apply decode_encode.
  - intros data. exists (string_of_list_byte (encode data)).
    split; [reflexivity|]. split; [apply encode_is_ascii|].
    apply list_byte_of_string_of_list_byte.
  - intros s. now rewrite string_of_list_byte_of_string.
Qed.

End TestLibsLaws.

Section RoundTrip.

Variable C : Cryptography.
Variable passphrase : string.
Hypothesis laws : CryptographyLaws C.

Lemma derived_key_ok (salt : bytes) :
  Fernet C (_derive_key_from_passphrase C passphrase salt)
  = Ok (_derive_key_from_passphrase C passphrase salt).
Proof.
  unfold Fernet, _derive_key_from_passphrase.
  now rewrite (fernet_generated_key_ok C laws _ (pbkdf2_length C laws _ _)).
Qed.

(** base64 text, as the manager stores and hands it out, decodes to the
    bytes it was made from *)
Lemma b64_text_roundtrip (data : bytes) :
  exists text,
    bytes_decode C (b64encode C data) = Ok text
    /\ b64decode_str C text = Ok data.
Proof.
  destruct (b64encode_text C laws data) as (text & Hdec & Hascii & Henc).
  exists text. split; [exact Hdec|].
  unfold b64decode_str. rewrite Hascii, Henc. apply (b64_roundtrip C laws).
Qed.

Lemma firstn_skipn_app (n : nat) (l1 l2 : bytes) :
  List.length l1 = n ->
  firstn n (l1 ++ l2)%list = l1 /\ skipn n (l1 ++ l2)%list = l2.
Proof.
  revert n; induction l1 as [|b l1 IH]; intros n Hn; simpl in Hn; subst n.
  - now split.
  - simpl. destruct (IH _ eq_refl) as [H1 H2]. now rewrite H1, H2.
Qed.

Lemma same_key_row_refl (t c key_data : string) :
  same_key_row (Some t) (Some c)
    {| mk_table_name := t; mk_column_name := c; encrypted_key := key_data |}
  = true.
Proof. unfold same_key_row. simpl. now rewrite !String.eqb_refl. Qed.

(** after the upsert the lookup finds the new key data first *)
Lemma upsert_key_lookup (rows : list key_row) (t c key_data : string) :
  exists r rest,
    filter (same_key_row (Some t) (Some c)) (upsert_key rows t c key_data)
    = r :: rest
    /\ encrypted_key r = key_data.
Proof.
  unfold upsert_key.
  destruct (existsb (same_key_row (Some t) (Some c)) rows) eqn:E.
  - induction rows as [|r0 rows IH]; [discriminate E|].
    cbn [existsb map filter] in *.
    destruct (same_key_row (Some t) (Some c) r0) eqn:E0.
    + change (same_key_row (Some t) (Some c)
                {| mk_table_name := mk_table_name r0;
                   mk_column_name := mk_column_name r0;
                   encrypted_key := key_data |})
        with (same_key_row (Some t) (Some c) r0).
      rewrite E0. eexists. eexists. split; reflexivity.
    + rewrite E0. apply IH. exact E.
  - rewrite filter_app. simpl. rewrite same_key_row_refl.
    assert (Hnone : filter (same_key_row (Some t) (Some c)) rows = []).
    { induction rows as [|r0 rows IH]; [reflexivity|]. simpl in *.
      apply orb_false_iff in E. destruct E as [E0 E]. rewrite E0.
      now apply IH. }
    rewrite Hnone. eexists. eexists. split; reflexivity.
Qed.

(** securing a column stores key material from which
    [get_column_key] recovers the very key that was generated *)
Lemma generate_column_key_stores_key (db : database) (t c : string)
      (seed salt entropy : bytes) :
  List.length seed = 32 ->
  List.length salt = 16 ->
  exists key db',
    generate_column_key C passphrase db t c seed salt entropy = Ok (key, db')
    /\ get_column_key C passphrase db' (Some t) (Some c) = Ok key
    /\ fernet_key_ok C key = true
    /\ is_column_encrypted db' (Some t) (Some c) = true.
Proof.
  intros Hseed Hsalt. unfold generate_column_key.
  rewrite derived_key_ok. cbn [bind].
  set (master_key := _derive_key_from_passphrase C passphrase salt).
  set (column_key := urlsafe_b64encode C seed).
  set (wrapped := fernet_encrypt C master_key entropy column_key).
  destruct (b64_text_roundtrip (salt ++ wrapped)%list) as (text & Htext & Hback).
  rewrite Htext. cbn [bind].
  eexists. eexists. split; [reflexivity|].
  destruct (upsert_key_lookup (master_keys db) t c text)
    as (r & rest & Hrows & Hkey).
  split; [|split].
  - unfold get_column_key. simpl master_keys. rewrite Hrows, Hkey, Hback.
    cbn [bind]. cbv zeta.
    destruct (firstn_skipn_app 16 salt wrapped Hsalt) as [-> ->].
    rewrite derived_key_ok. cbn [bind].
    apply (fernet_roundtrip C laws).
    unfold master_key, _derive_key_from_passphrase.
    apply (fernet_generated_key_ok C laws), (pbkdf2_length C laws).
  - apply (fernet_generated_key_ok C laws), Hseed.
  - unfold is_column_encrypted. simpl master_keys.
    apply existsb_exists. exists r. 
    assert (Hin : In r (filter (same_key_row (Some t) (Some c))
                               (upsert_key (master_keys db) t c text))).
    { rewrite Hrows. now left. }
    apply filter_In in Hin. exact Hin.
Qed.

(** C8: for a column whose stored key material [get_column_key] recovers
    as a key Fernet accepts, every string encrypts, and decrypting the
    result gives the string back. *)
Theorem decrypt_encrypt_roundtrip (db : database) (table column : pyname)
        (key : bytes) (s : string) (entropy : bytes) :
  get_column_key C passphrase db table column = Ok key ->
  fernet_key_ok C key = true ->
  exists encrypted,
    encrypt_value C passphrase db (VStr s) table column entropy
    = Ok encrypted
    /\ decrypt_value C passphrase db encrypted table column = Ok (VStr s).
Proof.
  intros Hkey Hok.
  assert (HF : Fernet C key = Ok key) by (unfold Fernet; now rewrite Hok).
  unfold encrypt_value. rewrite Hkey. cbn [bind]. rewrite HF. cbn [bind].
  set (token := fernet_encrypt C key entropy (str_encode C (Py.str (VStr s)))).
  destruct (b64_text_roundtrip token) as (text & Htext & Hback).
  rewrite Htext. cbn [bind]. exists (VStr text). split; [reflexivity|].
  unfold decrypt_value. rewrite Hkey. cbn [bind]. rewrite HF. cbn [bind].
  rewrite Hback. cbn [bind]. unfold token.
  rewrite (fernet_roundtrip C laws _ _ _ Hok). cbn [bind].
  simpl Py.str. rewrite (codec_roundtrip C laws). reflexivity.
Qed.

End RoundTrip.

Lemma decrypt_encrypt_roundtrip_witness :
  exists encrypted,
    encrypt_value TestLibs.libs Scenario.passphrase Scenario.employees_db
                  (VStr "123-45-6789") (Some "employees") (Some "ssn") []
    = Ok encrypted
    /\ decrypt_value TestLibs.libs Scenario.passphrase Scenario.employees_db
                     encrypted (Some "employees") (Some "ssn")
       = Ok (VStr "123-45-6789").
Proof.
  apply (decrypt_encrypt_roundtrip TestLibs.libs Scenario.passphrase
           TestLibsLaws.laws Scenario.employees_db (Some "employees")
           (Some "ssn") (TestLibs.encode Scenario.seed)).
  - vm_compute. reflexivity.
  - vm_compute. reflexivity.
Defined.

(** * Further properties of the code *)

(** ** What the authorization decision depends on *)

Section Decision.

Lemma flat_map_nil {A B : Type} (f : A -> list B) (l : list A) :
  flat_map f l = [] <-> forall x, In x l -> f x = [].
Proof.
  induction l as [|a l IH]; simpl.
  - split; [intros _ x [] | reflexivity].
  - split.
    + intros H. apply app_eq_nil in H. destruct H as [Ha Hl].
      intros x [<- | Hin]; [exact Ha | now apply IH].
    + intros H. rewrite (H a (or_introl eq_refl)). simpl.
      apply IH. intros x Hin. apply H. now right.
Qed.

Lemma table_denial_nil (db : database) (name : string) (table : pyname) :
  table_denial db name table = []
  <-> table_exists db table = true /\ check_access db name table None = true.
Proof.
  unfold table_denial.
  destruct (table_exists db table), (check_access db name table None);
    simpl; split; try easy; intros [H1 H2]; discriminate.
Qed.

Lemma check_access_same_grants (db db' : database) (name : string)
      (table column : pyname) :
  system_users db' = system_users db ->
  access_control db' = access_control db ->
  check_access db' name table column = check_access db name table column.
Proof.
  intros Hu Ha. unfold check_access, get_user. now rewrite Hu, Ha.
Qed.

(** an allowed query has passed the table-level check of each of its
    tables *)
Lemma allowed_table_access (db : database) (name : string)
      (tables columns : list pyname) (table : pyname) :
  allowed (validate_permissions db name tables columns) = true ->
  In table tables ->
  check_access db name table None = true.
Proof.
  intros Hallowed Hin. unfold validate_permissions in Hallowed.
  unfold check_access.
  destruct (get_user db name) as [user|] eqn:Hu; [|discriminate Hallowed].
  destruct (String.eqb (role user) "admin") eqn:Hr; [reflexivity|].
  assert (Hitems : flat_map (table_denial db name) tables = []).
  { destruct (flat_map (table_denial db name) tables) as [|i items];
      [reflexivity | discriminate Hallowed]. }
  pose proof (proj1 (flat_map_nil _ _) Hitems table Hin) as Ht.
  apply table_denial_nil in Ht. destruct Ht as [_ Ht].
  unfold check_access in Ht. now rewrite Hu, Hr in Ht.
Qed.

(** X1: for a principal that is not an admin, [validate_permissions]
    allows exactly when every referenced table exists and passes the
    table-level check; the requested columns, and with them the column
    grants, have no part in the decision. *)
Theorem validate_permissions_allowed_by_tables (db : database)
        (name : string) (user : user_row) (tables columns : list pyname) :
  get_user db name = Some user ->
  role user <> "admin" ->
  (allowed (validate_permissions db name tables columns) = true
   <-> forall table, In table tables ->
                     table_exists db table = true
                     /\ check_access db name table None = true).
Proof.
  intros Hu Hr.
  rewrite (validate_permissions_allowed_iff db name user tables columns Hu Hr),
    (validate_permissions_items db name user tables columns Hu Hr).
  split.
  - intros H. apply app_eq_nil in H. destruct H as [Ht _].
    intros table Hin. apply table_denial_nil.
    exact (proj1 (flat_map_nil _ _) Ht table Hin).
  - intros Hall.
    assert (Ht : flat_map (table_denial db name) tables = []).
    { apply flat_map_nil. intros table Hin. apply table_denial_nil.
      now apply Hall. }
    rewrite Ht. simpl.
    destruct columns as [|c0 cs]; [reflexivity|].
    destruct (negb (has_star (c0 :: cs))); [|reflexivity].
    apply flat_map_nil. intros table Hin.
    apply flat_map_nil. intros column _.
    unfold column_denial.
    now rewrite (table_grant_covers_column db name table column
                   (proj2 (Hall table Hin))).
Qed.

Lemma validate_permissions_allowed_by_tables_witness :
  allowed (validate_permissions Scenario.employees_db "viewer"
             [Some "employees"] [Some "name"]) = false.
Proof.
  apply not_true_iff_false. intros Hallowed.
  destruct (proj1 (validate_permissions_allowed_by_tables
                     Scenario.employees_db "viewer"
                     {| user_id := 3; username := "viewer"; role := "viewer" |}
                     [Some "employees"] [Some "name"] eq_refl
                     ltac:(discriminate))
                  Hallowed (Some "employees") (or_introl eq_refl))
    as [_ Hacc].
  discriminate Hacc.
Defined.

(** X2: once a query is allowed and the statement has left users and
    grants as they were, no cell is masked: a secured cell is decrypted (or
    becomes the error sentinel), any other cell is returned as stored. *)
Theorem authorized_cells_are_never_masked (env : Collaborators)
        (db db' : database) (name : string) (tables columns : list pyname)
        (col_name : string) (v : Py.value) :
  allowed (validate_permissions db name tables columns) = true ->
  system_users db' = system_users db ->
  access_control db' = access_control db ->
  transform_cell env db' name tables col_name v
  = match find (fun table => is_column_encrypted db' table (Some col_name))
               tables with
    | Some table =>
      match decrypt_value (cryptography env) (master_passphrase env)
                          db' v table (Some col_name) with
      | Ok plain => plain
      | Raise _ => VStr "[decryption error]"
      end
    | None => v
    end.
Proof.
  intros Hallowed Hu Ha. unfold transform_cell.
  destruct (find _ tables) as [table|] eqn:Hfind; [|reflexivity].
  apply find_some in Hfind. destruct Hfind as [Hin _].
  rewrite (check_access_same_grants db db' name table (Some col_name) Hu Ha).
  rewrite (table_grant_covers_column db name table (Some col_name)
             (allowed_table_access db name tables columns table Hallowed Hin)).
  reflexivity.
Qed.

Lemma authorized_cells_are_never_masked_witness :
  transform_cell Scenario.env Scenario.employees_db "analyst"
                 [Some "employees"] "ssn" (Scenario.stored_ssn "123-45-6789")
  = VStr "123-45-6789".
Proof.
  rewrite (authorized_cells_are_never_masked
             Scenario.env Scenario.employees_db Scenario.employees_db
             "analyst" [Some "employees"] [Some "name"; Some "ssn"]
             "ssn" (Scenario.stored_ssn "123-45-6789"));
    reflexivity.
Defined.

(** X3: for a principal that is not an admin nothing is left out of the
    denial list: every referenced table that does not exist, every existing
    table without table-level access and, when columns are requested
    without a wildcard marker, every (table, column) pair without access
    has its item in the list, and the query is denied. *)
Theorem validate_permissions_reports_every_problem (db : database)
        (name : string) (user : user_row) (tables columns : list pyname) :
  get_user db name = Some user ->
  role user <> "admin" ->
  let v := validate_permissions db name tables columns in
  (forall table,
      In table tables -> table_exists db table = false ->
      In ("table '" ++ name_str table ++ "' does not exist")
         (v_denied_items v) /\ allowed v = false)
  /\ (forall table,
         In table tables -> table_exists db table = true ->
         check_access db name table None = false ->
         In ("no access to table '" ++ name_str table ++ "'")
            (v_denied_items v) /\ allowed v = false)
  /\ (forall table column,
         In table tables -> In column columns -> has_star columns = false ->
         check_access db name table column = false ->
         In ("no access to column '" ++ name_str table ++ "."
             ++ name_str column ++ "'")
            (v_denied_items v) /\ allowed v = false).
Proof.
  intros Hu Hr v.
  assert (Hdenied : forall item, In item (v_denied_items v) ->
                                 allowed v = false).
  { intros item Hin. apply not_true_iff_false. intros Hallowed.
    apply (validate_permissions_allowed_iff db name user tables columns Hu Hr)
      in Hallowed.
    fold v in Hallowed. rewrite Hallowed in Hin. exact Hin. }
  assert (Hitems := validate_permissions_items db name user tables columns
                                               Hu Hr).
  fold v in Hitems.
  split; [|split].
  - intros table Hin Hexists.
    assert (Hitem : In ("table '" ++ name_str table ++ "' does not exist")
                       (v_denied_items v)).
    { rewrite Hitems. apply in_or_app. left. apply in_flat_map.
      exists table. split; [exact Hin|]. unfold table_denial.
      rewrite Hexists. now left. }
    split; [exact Hitem | exact (Hdenied _ Hitem)].
  - intros table Hin Hexists Hacc.
    assert (Hitem : In ("no access to table '" ++ name_str table ++ "'")
                       (v_denied_items v)).
    { rewrite Hitems. apply in_or_app. left. apply in_flat_map.
      exists table. split; [exact Hin|]. unfold table_denial.
      rewrite Hexists, Hacc. now left. }
    split; [exact Hitem | exact (Hdenied _ Hitem)].
  - intros table column Hin Hcol Hstar Hacc.
    assert (Hitem : In ("no access to column '" ++ name_str table ++ "."
                        ++ name_str column ++ "'") (v_denied_items v)).
    { rewrite Hitems. apply in_or_app. right.
      destruct columns as [|c0 cs]; [destruct Hcol|].
      rewrite Hstar. simpl negb. cbv iota.
      apply in_flat_map. exists table. split; [exact Hin|].
      apply in_flat_map. exists column. split; [exact Hcol|].
      unfold column_denial. rewrite Hacc. now left. }
    split; [exact Hitem | exact (Hdenied _ Hitem)].
Qed.

Lemma validate_permissions_reports_every_problem_witness :
  In "table 'payroll' does not exist"
     (v_denied_items
        (validate_permissions Scenario.employees_db "viewer"
                              [Some "employees"; Some "payroll"]
                              [Some "name"; Some "ssn"]))
  /\ In "no access to column 'payroll.ssn'"
        (v_denied_items
           (validate_permissions Scenario.employees_db "viewer"
                                 [Some "employees"; Some "payroll"]
                                 [Some "name"; Some "ssn"])).
Proof.
  destruct (validate_permissions_reports_every_problem
              Scenario.employees_db "viewer"
              {| user_id := 3; username := "viewer"; role := "viewer" |}
              [Some "employees"; Some "payroll"] [Some "name"; Some "ssn"]
              eq_refl ltac:(discriminate))
    as (Hmissing & _ & Hcolumn).
  split.
  - apply (Hmissing (Some "payroll")); [right; now left | reflexivity].
  - apply (Hcolumn (Some "payroll") (Some "ssn"));
      [right; now left | right; now left | reflexivity | reflexivity].
Defined.

End Decision.

(** ** Granting, revoking and checking *)

Section GrantRevoke.

Lemma existsb_map_same {A : Type} (p : A -> bool) (f : A -> A) (l : list A) :
  (forall x, p (f x) = p x) -> existsb p (map f l) = existsb p l.
Proof.
  intros Hp. induction l as [|a l IH]; [reflexivity|]. simpl.
  now rewrite Hp, IH.
Qed.

Lemma existsb_filter_same {A : Type} (p q : A -> bool) (l : list A) :
  (forall x, p x = true -> q x = true) ->
  existsb p (filter q l) = existsb p l.
Proof.
  intros Hpq. induction l as [|a l IH]; [reflexivity|]. simpl.
  destruct (q a) eqn:Hq; simpl; rewrite IH; [reflexivity|].
  destruct (p a) eqn:Hp; [|reflexivity].
  rewrite (Hpq a Hp) in Hq. discriminate Hq.
Qed.

Lemma existsb_filter_none {A : Type} (p q : A -> bool) (l : list A) :
  (forall x, p x = true -> q x = false) ->
  existsb p (filter q l) = false.
Proof.
  intros Hpq. induction l as [|a l IH]; [reflexivity|]. simpl.
  destruct (q a) eqn:Hq; [|exact IH]. simpl. rewrite IH.
  destruct (p a) eqn:Hp; [|reflexivity].
  rewrite (Hpq a Hp) in Hq. discriminate Hq.
Qed.

Lemma column_grant_row_update (uid : Z) (t c : pyname) (id : Z)
      (level : string) (now : Z) (r : access_row) :
  column_grant_row uid t c (update_grant id level now r)
  = column_grant_row uid t c r.
Proof. unfold update_grant. now destruct (Z.eqb (access_id r) id). Qed.

Lemma table_grant_row_update (uid : Z) (t : pyname) (id : Z)
      (level : string) (now : Z) (r : access_row) :
  table_grant_row uid t (update_grant id level now r)
  = table_grant_row uid t r.
Proof. unfold update_grant. now destruct (Z.eqb (access_id r) id). Qed.

(** a record of the tuple (uid, t, c) answers the check for (t, c) *)
Lemma same_grant_tuple_grants (uid : Z) (t : string) (c : pyname)
      (r : access_row) :
  same_grant_tuple uid t c r = true ->
  match c with
  | Some x => column_grant_row uid (Some t) (Some x) r = true
  | None => table_grant_row uid (Some t) r = true
  end.
Proof.
  unfold same_grant_tuple, column_grant_row, table_grant_row, sql_eq_nullable,
    sql_eq, is_null.
  destruct (Z.eqb (ac_user_id r) uid), (String.eqb (ac_table_name r) t),
    c as [x|], (ac_column_name r) as [y|]; simpl;
    try discriminate; try reflexivity.
  now rewrite orb_false_r.
Qed.

(** the rows after a grant: every old row, up to level and time, and a row
    of the granted tuple *)
Lemma grant_access_rows (db db' : database) (name : string) (user : user_row)
      (t : string) (c : pyname) (level : string) (now : Z) :
  get_user db name = Some user ->
  grant_access db name t c level now = Ok db' ->
  system_users db' = system_users db
  /\ exists id,
      access_control db' = map (update_grant id level now) (access_control db)
      /\ (exists r, In r (access_control db)
                    /\ same_grant_tuple (user_id user) t c r = true)
      \/ access_control db'
         = (access_control db ++
            [{| access_id := id; ac_user_id := user_id user;
                ac_table_name := t; ac_column_name := c;
                access_level := level; granted_at := now |}])%list.
Proof.
  intros Hu Hgrant. unfold grant_access in Hgrant. rewrite Hu in Hgrant.
  destruct (filter _ (access_control db)) as [|first rest] eqn:Ef;
    injection Hgrant as <-; (split; [reflexivity|]).
  - exists (access_id_seq db). right. reflexivity.
  - exists (access_id first). left. split; [reflexivity|].
    exists first. apply filter_In. rewrite Ef. now left.
Qed.

(** X4: after a grant on a table, or on a column with a non-empty name,
    the principal passes the access check for what was granted. *)
Theorem grant_access_then_check (db db' : database) (name : string)
        (t : string) (c : pyname) (level : string) (now : Z) :
  grant_access db name t c level now = Ok db' ->
  c <> Some EmptyString ->
  check_access db' name (Some t) c = true.
Proof.
  intros Hgrant Hc.
  destruct (get_user db name) as [user|] eqn:Hu;
    [|unfold grant_access in Hgrant; rewrite Hu in Hgrant; discriminate].
  destruct (grant_access_rows db db' name user t c level now Hu Hgrant)
    as (Husers & id & Hrows).
  unfold check_access, get_user. rewrite Husers.
  fold (get_user db name). rewrite Hu.
  destruct (String.eqb (role user) "admin"); [reflexivity|].
  assert (Hrow : exists r, In r (access_control db')
                           /\ same_grant_tuple (user_id user) t c r = true).
  { destruct Hrows as [[Hmap (r & Hin & Hr)] | Happ].
    - exists (update_grant id level now r). rewrite Hmap. split.
      + now apply in_map.
      + now rewrite same_grant_tuple_update.
    - rewrite Happ. eexists. split; [apply in_or_app; right; now left|].
      apply same_grant_tuple_new. }
  destruct Hrow as (r & Hin & Hr). apply same_grant_tuple_grants in Hr.
  destruct c as [x|].
  - assert (Htruthy : truthy (Some x) = true).
    { simpl. apply negb_true_iff, String.eqb_neq. congruence. }
    rewrite Htruthy. simpl andb.
    assert (He : existsb (column_grant_row (user_id user) (Some t) (Some x))
                         (access_control db') = true).
    { apply existsb_exists. now exists r. }
    now rewrite He.
  - simpl. apply existsb_exists. now exists r.
Qed.

Lemma grant_access_then_check_witness :
  exists db',
    grant_access Scenario.employees_db "viewer" "employees" (Some "ssn")
                 "read" 5%Z = Ok db'
    /\ check_access db' "viewer" (Some "employees") (Some "ssn") = true.
Proof.
  eexists. split; [reflexivity|].
  apply (grant_access_then_check Scenario.employees_db _ "viewer" "employees"
           (Some "ssn") "read" 5%Z); [reflexivity | discriminate].
Defined.

(** X5: a grant on the empty column name changes no access decision: the
    record it writes is read neither as a column grant nor as a table-wide
    one. *)
Theorem grant_access_empty_column_is_inert (db db' : database)
        (name name' : string) (t : string) (level : string) (now : Z)
        (table column : pyname) :
  grant_access db name t (Some EmptyString) level now = Ok db' ->
  check_access db' name' table column = check_access db name' table column.
Proof.
  intros Hgrant.
  destruct (get_user db name) as [user|] eqn:Hu;
    [|unfold grant_access in Hgrant; rewrite Hu in Hgrant; discriminate].
  destruct (grant_access_rows db db' name user t _ level now Hu Hgrant)
    as (Husers & id & Hrows).
  unfold check_access, get_user. rewrite Husers.
  destruct (find _ (system_users db)) as [user'|]; [|reflexivity].
  destruct (String.eqb (role user') "admin"); [reflexivity|].
  destruct Hrows as [[-> _] | ->].
  - rewrite !existsb_map_same;
      [reflexivity | intros x; apply table_grant_row_update
       | intros x; apply column_grant_row_update].
  - rewrite !existsb_app. simpl existsb.
    assert (Hcol : truthy column
                   && column_grant_row (user_id user') table column
                        {| access_id := id; ac_user_id := user_id user;
                           ac_table_name := t;
                           ac_column_name := Some EmptyString;
                           access_level := level; granted_at := now |}
                   = false).
    { unfold column_grant_row. destruct column as [[|a x]|]; simpl;
        [reflexivity | now rewrite !andb_false_r | reflexivity]. }
    assert (Htab : table_grant_row (user_id user') table
                     {| access_id := id; ac_user_id := user_id user;
                        ac_table_name := t;
                        ac_column_name := Some EmptyString;
                        access_level := level; granted_at := now |}
                   = false).
    { unfold table_grant_row. simpl. apply andb_false_r. }
    rewrite Htab, !orb_false_r.
    destruct (truthy column); [|reflexivity]. simpl in *.
    rewrite Hcol, !orb_false_r. reflexivity.
Qed.

Lemma grant_access_empty_column_is_inert_witness :
  exists db',
    grant_access Scenario.employees_db "viewer" "employees"
                 (Some EmptyString) "read" 5%Z = Ok db'
    /\ check_access db' "viewer" (Some "employees") (Some EmptyString)
       = false.
Proof.
  eexists. split; [reflexivity|].
  rewrite (grant_access_empty_column_is_inert
             Scenario.employees_db _ "viewer" "viewer" "employees" "read" 5%Z
             (Some "employees") (Some EmptyString) eq_refl).
  reflexivity.
Defined.

End GrantRevoke.

Section Revoke.

Lemma revoke_access_rows (db db' : database) (name : string)
      (user : user_row) (t : string) (c : pyname) :
  get_user db name = Some user ->
  revoke_access db name t c = Ok db' ->
  system_users db' = system_users db
  /\ access_control db'
     = filter (fun r => negb (same_grant_tuple (user_id user) t c r))
              (access_control db).
Proof.
  intros Hu Hrev. unfold revoke_access in Hrev. rewrite Hu in Hrev.
  injection Hrev as <-. split; reflexivity.
Qed.

Lemma same_grant_tuple_unique (uid uid' : Z) (t t' : string) (c c' : pyname)
      (r : access_row) :
  same_grant_tuple uid t c r = true ->
  same_grant_tuple uid' t' c' r = true ->
  (uid', t', c') = (uid, t, c).
Proof.
  unfold same_grant_tuple, sql_eq_nullable, sql_eq, is_null.
  rewrite !andb_true_iff, !Z.eqb_eq, !String.eqb_eq.
  intros [[<- <-] Hc] [[<- <-] Hc'].
  destruct (ac_column_name r) as [y|], c as [x|], c' as [x'|]; simpl in *;
    try discriminate; try reflexivity.
  rewrite orb_false_r in Hc, Hc'. apply String.eqb_eq in Hc, Hc'.
  now subst.
Qed.

Lemma filter_negb_all {A : Type} (p : A -> bool) (l : list A) :
  filter p l = [] -> filter (fun x => negb (p x)) l = l.
Proof.
  induction l as [|a l IH]; [reflexivity|]. simpl.
  destruct (p a); [discriminate|]. simpl. intros H. now rewrite IH.
Qed.

Lemma filter_filter_negb {A : Type} (p : A -> bool) (l : list A) :
  filter p (filter (fun x => negb (p x)) l) = [].
Proof.
  induction l as [|a l IH]; [reflexivity|]. simpl.
  destruct (p a) eqn:Hp; simpl; [exact IH | now rewrite Hp].
Qed.

Lemma filter_filter_other {A : Type} (p q : A -> bool) (l : list A) :
  (forall x, p x = true -> q x = true) ->
  filter p (filter q l) = filter p l.
Proof.
  intros Hpq. induction l as [|a l IH]; [reflexivity|]. simpl.
  destruct (q a) eqn:Hq; simpl; rewrite IH; [reflexivity|].
  destruct (p a) eqn:Hp; [|reflexivity].
  rewrite (Hpq a Hp) in Hq. discriminate Hq.
Qed.

(** X6: a revocation removes the records of its tuple and only those, and
    repeating it changes nothing. *)
Theorem revoke_access_removes_tuple (db db' : database) (name : string)
        (user : user_row) (t : string) (c : pyname) :
  get_user db name = Some user ->
  revoke_access db name t c = Ok db' ->
  grants_of db' (user_id user) t c = []
  /\ (forall uid' t' c',
         (uid', t', c') <> (user_id user, t, c) ->
         grants_of db' uid' t' c' = grants_of db uid' t' c')
  /\ revoke_access db' name t c = Ok db'.
Proof.
  intros Hu Hrev.
  destruct (revoke_access_rows db db' name user t c Hu Hrev) as [Husers Hrows].
  unfold grants_of. rewrite Hrows. split; [|split].
  - apply filter_filter_negb.
  - intros uid' t' c' Hne. apply filter_filter_other.
    intros r Hr. apply negb_true_iff, not_true_iff_false. intros Hr'.
    apply Hne. exact (same_grant_tuple_unique _ _ _ _ _ _ r Hr' Hr).
  - unfold revoke_access in *. rewrite Hu in Hrev. injection Hrev as <-.
    unfold get_user in *. simpl system_users. rewrite Hu.
    simpl access_control.
    rewrite (filter_negb_all
               (same_grant_tuple (user_id user) t c)
               (filter (fun r => negb (same_grant_tuple (user_id user) t c r))
                       (access_control db)))
      by apply filter_filter_negb.
    reflexivity.
Qed.

Lemma revoke_access_removes_tuple_witness :
  exists db',
    revoke_access Scenario.employees_db "analyst" "employees" (Some "salary")
    = Ok db'
    /\ grants_of db' 2 "employees" (Some "salary") = []
    /\ grants_of db' 2 "employees" None
       = grants_of Scenario.employees_db 2 "employees" None.
Proof.
  eexists. split; [reflexivity|].
  destruct (revoke_access_removes_tuple
              Scenario.employees_db _ "analyst"
              {| user_id := 2; username := "analyst"; role := "analyst" |}
              "employees" (Some "salary") eq_refl eq_refl)
    as (Hgone & Hothers & _).
  split; [exact Hgone|].
  apply (Hothers 2%Z "employees" None). discriminate.
Defined.

(** X7: granting on a tuple that has no record and revoking it again
    restores the grant table. *)
Theorem grant_then_revoke_restores (db db1 db2 : database) (name : string)
        (user : user_row) (t : string) (c : pyname) (level : string)
        (now : Z) :
  get_user db name = Some user ->
  grants_of db (user_id user) t c = [] ->
  grant_access db name t c level now = Ok db1 ->
  revoke_access db1 name t c = Ok db2 ->
  access_control db2 = access_control db
  /\ system_users db2 = system_users db.
Proof.
  intros Hu Hfresh Hgrant Hrev. unfold grants_of in Hfresh.
  unfold grant_access in Hgrant. rewrite Hu, Hfresh in Hgrant.
  injection Hgrant as <-.
  unfold revoke_access, get_user in Hrev. simpl system_users in Hrev.
  fold (get_user db name) in Hrev. rewrite Hu in Hrev. injection Hrev as <-.
  split; [|reflexivity]. simpl.
  rewrite filter_app. simpl. rewrite same_grant_tuple_new. simpl.
  rewrite app_nil_r. now apply filter_negb_all.
Qed.

Lemma grant_then_revoke_restores_witness :
  exists db1 db2,
    grant_access Scenario.employees_db "viewer" "employees" (Some "ssn")
                 "read" 5%Z = Ok db1
    /\ revoke_access db1 "viewer" "employees" (Some "ssn") = Ok db2
    /\ access_control db2 = access_control Scenario.employees_db.
Proof.
  eexists. eexists. split; [reflexivity|]. split; [reflexivity|].
  eapply (grant_then_revoke_restores
            Scenario.employees_db _ _ "viewer"
            {| user_id := 3; username := "viewer"; role := "viewer" |}
            "employees" (Some "ssn") "read" 5%Z); reflexivity.
Defined.

(** X8: after the table-wide grant of a principal that is not an admin
    is revoked, every query that names the table is denied. *)
Theorem revoke_table_grant_denies (db db' : database) (name : string)
        (user : user_row) (t : string) (tables columns : list pyname) :
  get_user db name = Some user ->
  role user <> "admin" ->
  revoke_access db name t None = Ok db' ->
  In (Some t) tables ->
  allowed (validate_permissions db' name tables columns) = false.
Proof.
  intros Hu Hr Hrev Hin. apply not_true_iff_false. intros Hallowed.
  pose proof (allowed_table_access db' name tables columns (Some t)
                                   Hallowed Hin) as Hacc.
  destruct (revoke_access_rows db db' name user t None Hu Hrev)
    as [Husers Hrows].
  unfold check_access, get_user in Hacc. rewrite Husers in Hacc.
  fold (get_user db name) in Hacc. rewrite Hu, (role_not_admin _ Hr) in Hacc.
  simpl in Hacc. rewrite Hrows, existsb_filter_none in Hacc;
    [discriminate Hacc|].
  intros r Hrow. apply negb_false_iff.
  apply table_grant_row_spec in Hrow. destruct Hrow as (Hid & Ht & Hnull).
  unfold same_grant_tuple. rewrite Hid, Ht, Hnull, Z.eqb_refl, String.eqb_refl.
  reflexivity.
Qed.

Lemma revoke_table_grant_denies_witness :
  exists db',
    revoke_access Scenario.employees_db "analyst" "employees" None = Ok db'
    /\ allowed (validate_permissions Scenario.employees_db "analyst"
                                     [Some "employees"] [Some "salary"]) = true
    /\ allowed (validate_permissions db' "analyst"
                                     [Some "employees"] [Some "salary"]) = false.
Proof.
  eexists. split; [reflexivity|]. split; [reflexivity|].
  apply (revoke_table_grant_denies
           Scenario.employees_db _ "analyst"
           {| user_id := 2; username := "analyst"; role := "analyst" |}
           "employees");
    [reflexivity | discriminate | reflexivity | now left].
Defined.

(** X9: revoking a column grant leaves the column under the table-level
    decision: a principal that holds the table-wide grant keeps access to
    the column. *)
Theorem revoke_column_keeps_table_access (db db' : database) (name : string)
        (t c : string) :
  revoke_access db name t (Some c) = Ok db' ->
  check_access db' name (Some t) (Some c) = check_access db name (Some t) None.
Proof.
  intros Hrev.
  destruct (get_user db name) as [user|] eqn:Hu;
    [|unfold revoke_access in Hrev; rewrite Hu in Hrev; discriminate].
  destruct (revoke_access_rows db db' name user t (Some c) Hu Hrev)
    as [Husers Hrows].
  unfold check_access, get_user. rewrite Husers.
  fold (get_user db name). rewrite Hu.
  destruct (String.eqb (role user) "admin"); [reflexivity|].
  rewrite Hrows. simpl truthy at 2. simpl andb at 2.
  rewrite existsb_filter_none.
  - rewrite andb_false_r. apply existsb_filter_same.
    intros r Hrow. apply negb_true_iff.
    apply table_grant_row_spec in Hrow. destruct Hrow as (_ & _ & Hnull).
    unfold same_grant_tuple. rewrite Hnull. simpl. apply andb_false_r.
  - intros r Hrow. apply negb_false_iff.
    apply column_grant_row_spec in Hrow. destruct Hrow as (Hid & Ht & Hcol).
    unfold same_grant_tuple.
    rewrite Hid, Ht, Hcol, Z.eqb_refl, String.eqb_refl. simpl.
    now rewrite String.eqb_refl.
Qed.

Lemma revoke_column_keeps_table_access_witness :
  exists db',
    revoke_access Scenario.employees_db "analyst" "employees" (Some "salary")
    = Ok db'
    /\ check_access db' "analyst" (Some "employees") (Some "salary") = true.
Proof.
  eexists. split; [reflexivity|].
  rewrite (revoke_column_keeps_table_access
             Scenario.employees_db _ "analyst" "employees" "salary" eq_refl).
  reflexivity.
Defined.

(** X10: granting to, or revoking from, one principal changes no access
    decision of a principal with another user id. *)
Theorem other_principals_are_unaffected (db db' : database)
        (name name' : string) (user user' : user_row) (t : string)
        (c : pyname) (level : string) (now : Z) (table column : pyname) :
  get_user db name = Some user ->
  get_user db name' = Some user' ->
  user_id user' <> user_id user ->
  grant_access db name t c level now = Ok db'
  \/ revoke_access db name t c = Ok db' ->
  check_access db' name' table column = check_access db name' table column.
Proof.
  intros Hu Hu' Hne Hop.
  assert (Hz : Z.eqb (user_id user) (user_id user') = false)
    by (apply Z.eqb_neq; congruence).
  destruct Hop as [Hgrant | Hrev].
  - destruct (grant_access_rows db db' name user t c level now Hu Hgrant)
      as (Husers & id & Hrows).
    unfold check_access, get_user. rewrite Husers.
    fold (get_user db name'). rewrite Hu'.
    destruct (String.eqb (role user') "admin"); [reflexivity|].
    destruct Hrows as [[-> _] | ->].
    + rewrite !existsb_map_same;
        [reflexivity | intros x; apply table_grant_row_update
         | intros x; apply column_grant_row_update].
    + rewrite !existsb_app. simpl existsb.
      unfold column_grant_row at 2, table_grant_row at 2. simpl.
      rewrite Hz. simpl. now rewrite !orb_false_r.
  - destruct (revoke_access_rows db db' name user t c Hu Hrev)
      as [Husers Hrows].
    unfold check_access, get_user. rewrite Husers.
    fold (get_user db name'). rewrite Hu'.
    destruct (String.eqb (role user') "admin"); [reflexivity|].
    rewrite Hrows.
    assert (Hkeep : forall r, Z.eqb (ac_user_id r) (user_id user') = true ->
                              negb (same_grant_tuple (user_id user) t c r)
                              = true).
    { intros r Hid. apply Z.eqb_eq in Hid. apply negb_true_iff.
      unfold same_grant_tuple. rewrite Hid.
      assert (Hz' : Z.eqb (user_id user') (user_id user) = false)
        by (now apply Z.eqb_neq).
      now rewrite Hz'. }
    rewrite !existsb_filter_same; [reflexivity | |].
    + intros r Hrow. apply Hkeep. unfold table_grant_row in Hrow.
      rewrite !andb_true_iff in Hrow. tauto.
    + intros r Hrow. apply Hkeep. unfold column_grant_row in Hrow.
      rewrite !andb_true_iff in Hrow. tauto.
Qed.

Lemma other_principals_are_unaffected_witness :
  exists db',
    revoke_access Scenario.employees_db "analyst" "employees" None = Ok db'
    /\ check_access db' "viewer" (Some "employees") (Some "name") = true.
Proof.
  eexists. split; [reflexivity|].
  rewrite (other_principals_are_unaffected
             Scenario.employees_db _ "analyst" "viewer"
             {| user_id := 2; username := "analyst"; role := "analyst" |}
             {| user_id := 3; username := "viewer"; role := "viewer" |}
             "employees" None "read" 0%Z (Some "employees") (Some "name")
             eq_refl eq_refl ltac:(discriminate) (or_intror eq_refl)).
  reflexivity.
Defined.

End Revoke.

(** ** Column keys *)

Section ColumnKeys.

Variable C : Cryptography.
Variable passphrase : string.

Lemma existsb_false_filter {A : Type} (p : A -> bool) (l : list A) :
  existsb p l = false -> filter p l = [].
Proof.
  induction l as [|a l IH]; [reflexivity|]. simpl.
  intros H. apply orb_false_iff in H. destruct H as [Ha Hl].
  rewrite Ha. now apply IH.
Qed.

(** X11: for a column without a key record, [get_column_key] raises the
    [ValueError] that names the column, and so do [encrypt_value] and
    [decrypt_value] on every value but [None], which both pass through. *)
Theorem unsecured_column_has_no_crypto (db : database)
        (table column : pyname) (v : Py.value) (entropy : bytes) :
  is_column_encrypted db table column = false ->
  let missing :=
      ValueError ("no encryption key found for " ++ name_str table ++ "."
                  ++ name_str column) in
  get_column_key C passphrase db table column = Raise missing
  /\ (v <> VNone ->
      encrypt_value C passphrase db v table column entropy = Raise missing
      /\ decrypt_value C passphrase db v table column = Raise missing)
  /\ encrypt_value C passphrase db VNone table column entropy = Ok VNone
  /\ decrypt_value C passphrase db VNone table column = Ok VNone.
Proof.
  intros Hno missing.
  assert (Hkey : get_column_key C passphrase db table column = Raise missing).
  { unfold get_column_key, is_column_encrypted in *.
    now rewrite (existsb_false_filter _ _ Hno). }
  split; [exact Hkey|]. split; [|split; reflexivity].
  intros Hv. unfold encrypt_value, decrypt_value. rewrite Hkey.
  destruct v; [contradiction | | |]; split; reflexivity.
Qed.

Lemma same_key_row_both (t c : string) (t' c' : pyname) (r : key_row) :
  same_key_row (Some t) (Some c) r = true ->
  same_key_row t' c' r = true ->
  (t', c') = (Some t, Some c).
Proof.
  unfold same_key_row, sql_eq. rewrite !andb_true_iff, !String.eqb_eq.
  intros [<- <-]. destruct t' as [t'|], c' as [c'|]; simpl;
    rewrite ?String.eqb_eq; intros [H1 H2]; try discriminate.
  now subst.
Qed.

Lemma upsert_key_other (rows : list key_row) (t c key_data : string)
      (t' c' : pyname) :
  (t', c') <> (Some t, Some c) ->
  filter (same_key_row t' c') (upsert_key rows t c key_data)
  = filter (same_key_row t' c') rows.
Proof.
  intros Hne. unfold upsert_key.
  destruct (existsb (same_key_row (Some t) (Some c)) rows).
  - induction rows as [|r rows IH]; [reflexivity|]. cbn [map filter].
    rewrite IH.
    destruct (same_key_row (Some t) (Some c) r) eqn:Er; [|reflexivity].
    change (same_key_row t' c'
              {| mk_table_name := mk_table_name r;
                 mk_column_name := mk_column_name r;
                 encrypted_key := key_data |})
      with (same_key_row t' c' r).
    destruct (same_key_row t' c' r) eqn:Er'; [|reflexivity].
    exfalso. apply Hne. exact (same_key_row_both t c t' c' r Er Er').
  - rewrite filter_app. cbn [filter].
    destruct (same_key_row t' c' _) eqn:Enew; [|apply app_nil_r].
    exfalso. apply Hne.
    apply (same_key_row_both t c t' c'
             {| mk_table_name := t; mk_column_name := c;
                encrypted_key := key_data |});
      [apply same_key_row_refl | exact Enew].
Qed.

Lemma filter_same_existsb_same {A : Type} (p : A -> bool) (l l' : list A) :
  filter p l = filter p l' -> existsb p l = existsb p l'.
Proof.
  intros Hf.
  destruct (existsb p l) eqn:E1; destruct (existsb p l') eqn:E2;
    try reflexivity.
  - apply existsb_exists in E1. destruct E1 as (r & Hin & Hr).
    assert (Hin' : In r (filter p l'))
      by (rewrite <- Hf; apply filter_In; now split).
    rewrite (existsb_false_filter _ _ E2) in Hin'. destruct Hin'.
  - apply existsb_exists in E2. destruct E2 as (r & Hin & Hr).
    assert (Hin' : In r (filter p l))
      by (rewrite Hf; apply filter_In; now split).
    rewrite (existsb_false_filter _ _ E1) in Hin'. destruct Hin'.
Qed.

(** what a successful [generate_column_key] returns and stores *)
Lemma generate_column_key_result (db db' : database) (t c : string)
      (seed salt entropy key : bytes) :
  generate_column_key C passphrase db t c seed salt entropy = Ok (key, db') ->
  key = urlsafe_b64encode C seed
  /\ system_users db' = system_users db
  /\ access_control db' = access_control db
  /\ exists text, master_keys db' = upsert_key (master_keys db) t c text.
Proof.
  intros Hgen. unfold generate_column_key in Hgen.
  destruct (Fernet C _) as [f|e]; [|discriminate Hgen]. cbn [bind] in Hgen.
  destruct (bytes_decode C _) as [text|e]; [|discriminate Hgen].
  cbn [bind] in Hgen. injection Hgen as <- <-.
  repeat split. now exists text.
Qed.

(** X12: securing a column leaves every other column as it was: its key
    lookup and its secured flag are unchanged, and users and grants are
    untouched. *)
Theorem generate_column_key_leaves_other_columns (db db' : database)
        (t c : string) (seed salt entropy key : bytes) (t' c' : pyname) :
  generate_column_key C passphrase db t c seed salt entropy = Ok (key, db') ->
  (t', c') <> (Some t, Some c) ->
  get_column_key C passphrase db' t' c' = get_column_key C passphrase db t' c'
  /\ is_column_encrypted db' t' c' = is_column_encrypted db t' c'
  /\ system_users db' = system_users db
  /\ access_control db' = access_control db.
Proof.
  intros Hgen Hne.
  destruct (generate_column_key_result db db' t c seed salt entropy key Hgen)
    as (_ & Husers & Hgrants & text & Hkeys).
  pose proof (upsert_key_other (master_keys db) t c text t' c' Hne) as Hrows.
  rewrite <- Hkeys in Hrows.
  split; [|split; [|split; assumption]].
  - unfold get_column_key. now rewrite Hrows.
  - unfold is_column_encrypted. now apply filter_same_existsb_same.
Qed.

Hypothesis laws : CryptographyLaws C.

Lemma upsert_key_count (rows : list key_row) (t c key_data : string) :
  List.length (filter (same_key_row (Some t) (Some c))
                      (upsert_key rows t c key_data))
  = Nat.max 1 (List.length (filter (same_key_row (Some t) (Some c)) rows)).
Proof.
  unfold upsert_key.
  destruct (existsb (same_key_row (Some t) (Some c)) rows) eqn:E.
  - assert (Hsame : filter (same_key_row (Some t) (Some c))
                      (map (fun r =>
                              if same_key_row (Some t) (Some c) r then
                                {| mk_table_name := mk_table_name r;
                                   mk_column_name := mk_column_name r;
                                   encrypted_key := key_data |}
                              else r) rows)
                    = map (fun r =>
                             {| mk_table_name := mk_table_name r;
                                mk_column_name := mk_column_name r;
                                encrypted_key := key_data |})
                          (filter (same_key_row (Some t) (Some c)) rows)).
    { clear E. induction rows as [|r rows IH]; [reflexivity|].
      cbn [map filter].
      destruct (same_key_row (Some t) (Some c) r) eqn:Er.
      - change (same_key_row (Some t) (Some c)
                  {| mk_table_name := mk_table_name r;
                     mk_column_name := mk_column_name r;
                     encrypted_key := key_data |})
          with (same_key_row (Some t) (Some c) r).
        rewrite Er. cbn [map]. now rewrite IH.
      - rewrite Er. exact IH. }
    rewrite Hsame, length_map.
    apply existsb_exists in E. destruct E as (r & Hin & Hr).
    assert (Hin' : In r (filter (same_key_row (Some t) (Some c)) rows))
      by (apply filter_In; now split).
    destruct (filter _ rows); [destruct Hin' | simpl; lia].
  - rewrite filter_app, length_app, (existsb_false_filter _ _ E).
    cbn [filter]. rewrite same_key_row_refl. reflexivity.
Qed.

(** X13: securing a column, also one that is secured already, succeeds and
    keeps the key table at one record per column at most; the column then
    has exactly one record, and it unwraps to the key just generated, so a
    former key of the column is gone. *)
Theorem generate_column_key_replaces_key (db : database) (t c : string)
        (seed salt entropy : bytes) :
  List.length seed = 32 ->
  List.length salt = 16 ->
  keys_unique db ->
  exists db',
    generate_column_key C passphrase db t c seed salt entropy
    = Ok (urlsafe_b64encode C seed, db')
    /\ keys_unique db'
    /\ List.length (filter (same_key_row (Some t) (Some c)) (master_keys db'))
       = 1
    /\ get_column_key C passphrase db' (Some t) (Some c)
       = Ok (urlsafe_b64encode C seed).
Proof.
  intros Hseed Hsalt Hunique.
  destruct (generate_column_key_stores_key C passphrase laws db t c seed salt
              entropy Hseed Hsalt) as (key & db' & Hgen & Hget & _ & _).
  destruct (generate_column_key_result db db' t c seed salt entropy key Hgen)
    as (-> & _ & _ & text & Hrows).
  exists db'. split; [exact Hgen|].
  assert (Hone : List.length (filter (same_key_row (Some t) (Some c))
                                     (master_keys db')) = 1).
  { rewrite Hrows, upsert_key_count. specialize (Hunique t c). lia. }
  split; [|split; [exact Hone | exact Hget]].
  intros t' c'.
  destruct (string_dec t' t) as [-> | Ht];
    [destruct (string_dec c' c) as [-> | Hc]|].
  - rewrite Hone. lia.
  - rewrite Hrows, upsert_key_other by congruence. apply Hunique.
  - rewrite Hrows, upsert_key_other by congruence. apply Hunique.
Qed.

End ColumnKeys.

Lemma unsecured_column_has_no_crypto_witness :
  decrypt_value TestLibs.libs Scenario.passphrase Scenario.employees_db
                (VStr "85000") (Some "employees") (Some "salary")
  = Raise (ValueError "no encryption key found for employees.salary").
Proof.
  destruct (unsecured_column_has_no_crypto
              TestLibs.libs Scenario.passphrase Scenario.employees_db
              (Some "employees") (Some "salary") (VStr "85000") [] eq_refl)
    as (_ & Hraise & _).
  apply Hraise. discriminate.
Defined.

Lemma generate_column_key_leaves_other_columns_witness :
  is_column_encrypted Scenario.employees_db (Some "employees") (Some "salary")
  = is_column_encrypted Scenario.unsecured_db (Some "employees")
                        (Some "salary").
Proof.
  eapply (generate_column_key_leaves_other_columns
            TestLibs.libs Scenario.passphrase
            Scenario.unsecured_db Scenario.employees_db "employees" "ssn"
            Scenario.seed Scenario.salt [] (TestLibs.encode Scenario.seed)
            (Some "employees") (Some "salary")).
  - vm_compute. reflexivity.
  - discriminate.
Defined.

Lemma generate_column_key_replaces_key_witness :
  exists db',
    generate_column_key TestLibs.libs Scenario.passphrase
                        Scenario.employees_db "employees" "ssn"
                        (repeat Byte.x11 32) Scenario.salt []
    = Ok (TestLibs.encode (repeat Byte.x11 32), db')
    /\ get_column_key TestLibs.libs Scenario.passphrase db'
                      (Some "employees") (Some "ssn")
       = Ok (TestLibs.encode (repeat Byte.x11 32)).
Proof.
  destruct (generate_column_key_replaces_key
              TestLibs.libs Scenario.passphrase TestLibsLaws.laws
              Scenario.employees_db "employees" "ssn"
              (repeat Byte.x11 32) Scenario.salt [])
    as (db' & Hgen & _ & _ & Hget).
  - reflexivity.
  - reflexivity.
  - intros t c. etransitivity; [apply filter_length_le|].
    vm_compute. apply le_n.
  - exists db'. split; assumption.
Defined.

(** ** What the table loop of [parse_query] sees *)

Section TableLoop.

Lemma from_tables_without_from (tokens : list token) (acc : list pyname) :
  (forall token, In token tokens -> is_from token = false) ->
  from_tables false tokens acc = Ok acc.
Proof.
  induction tokens as [|token rest IH]; intros Hno; [reflexivity|].
  simpl. rewrite (Hno token (or_introl eq_refl)).
  apply IH. intros tok Hin. apply Hno. now right.
Qed.

(** X14: a statement without a [FROM] keyword has no table reference, so
    for every existing principal [execute_query] hands it to the datastore
    without any access check having been made. *)
Theorem statement_without_from_is_executed (env : Collaborators)
        (db : database) (name sql : string) (user : user_row)
        (tokens : statement) (others : list statement) (p : parsed_query) :
  sqlparse_parse env sql = Ok (tokens :: others) ->
  (forall token, In token tokens -> is_from token = false) ->
  parse_statement tokens = Ok p ->
  get_user db name = Some user ->
  q_tables p = []
  /\ v_denied_items (validate_permissions db name (q_tables p)
                       (expand_wildcard db (q_tables p) (q_columns p))) = []
  /\ snd (execute_query env db name sql) = [sql].
Proof.
  intros Hparse Hno Hp Hu.
  assert (Htables : q_tables p = []).
  { unfold parse_statement in Hp.
    rewrite (from_tables_without_from tokens [] Hno) in Hp.
    cbn [bind] in Hp.
    destruct (match statement_type tokens with
              | Some ty => if String.eqb ty "SELECT"
                           then select_columns false tokens [] else Ok []
              | None => Ok []
              end) as [cols|e]; [|discriminate Hp].
    cbn [bind] in Hp. now injection Hp as <-. }
  split; [exact Htables|].
  assert (Hallowed : allowed (validate_permissions db name (q_tables p)
                                (expand_wildcard db (q_tables p) (q_columns p)))
                     = true).
  { rewrite Htables. exact (validate_permissions_no_tables db name user _ Hu). }
  split.
  - unfold validate_permissions in *. rewrite Hu in *.
    destruct (String.eqb (role user) "admin"); [reflexivity|].
    destruct (_ ++ _)%list; [reflexivity | discriminate Hallowed].
  - unfold execute_query, parse_query. rewrite Hparse. cbn [bind].
    rewrite Hp. cbv beta iota zeta. rewrite Hallowed. simpl negb. cbv iota.
    now destruct (datastore_execute env sql db).
Qed.

Lemma from_tables_stops_at_keyword (pre : list token) (kw : token)
      (post post' : list token) :
  ttype_is kw Keyword = true ->
  forall acc,
    from_tables true (pre ++ kw :: post) acc
    = from_tables true (pre ++ kw :: post') acc.
Proof.
  intros Hkw. induction pre as [|t pre IH]; intros acc.
  - destruct kw as [ty v | cls text rn ch]; [|discriminate Hkw].
    simpl. simpl in Hkw. now rewrite Hkw.
  - simpl. destruct t as [ty v | [| |] text rn ch].
    + destruct (ttype_is (Token ty v) Keyword); [reflexivity | apply IH].
    + simpl. apply IH.
    + destruct (map_result get_real_name _); simpl; [apply IH | reflexivity].
    + simpl. apply IH.
Qed.

Lemma from_tables_after_from (head : list token) (from : token)
      (mid : list token) (kw : token) (post post' : list token) :
  is_from from = true ->
  ttype_is kw Keyword = true ->
  forall seen acc,
    from_tables seen (head ++ from :: mid ++ kw :: post) acc
    = from_tables seen (head ++ from :: mid ++ kw :: post') acc.
Proof.
  intros Hfrom Hkw seen acc.
  destruct seen.
  - replace (head ++ from :: mid ++ kw :: post)%list
      with ((head ++ from :: mid) ++ kw :: post)%list
      by (now rewrite <- app_assoc).
    replace (head ++ from :: mid ++ kw :: post')%list
      with ((head ++ from :: mid) ++ kw :: post')%list
      by (now rewrite <- app_assoc).
    now apply from_tables_stops_at_keyword.
  - revert acc. induction head as [|h head IH]; intros acc.
    + simpl. rewrite Hfrom. now apply from_tables_stops_at_keyword.
    + simpl. destruct (is_from h); [|apply IH].
      replace (head ++ from :: mid ++ kw :: post)%list
        with ((head ++ from :: mid) ++ kw :: post)%list
        by (now rewrite <- app_assoc).
      replace (head ++ from :: mid ++ kw :: post')%list
        with ((head ++ from :: mid) ++ kw :: post')%list
        by (now rewrite <- app_assoc).
      now apply from_tables_stops_at_keyword.
Qed.

(** X15: the tables of a statement are read between [FROM] and the next
    keyword only: whatever follows that keyword (the tables of a [JOIN],
    for one) has no part in the extracted table list. *)
Theorem tables_end_at_next_keyword (head : list token) (from : token)
        (mid : list token) (kw : token) (post post' : list token)
        (p p' : parsed_query) :
  is_from from = true ->
  ttype_is kw Keyword = true ->
  parse_statement (head ++ from :: mid ++ kw :: post)%list = Ok p ->
  parse_statement (head ++ from :: mid ++ kw :: post')%list = Ok p' ->
  q_tables p = q_tables p'.
Proof.
  intros Hfrom Hkw Hp Hp'. unfold parse_statement in Hp, Hp'.
  rewrite (from_tables_after_from head from mid kw post post' Hfrom Hkw)
    in Hp.
  destruct (from_tables false (head ++ from :: mid ++ kw :: post')%list [])
    as [tables|e]; [|discriminate Hp].
  cbn [bind] in Hp, Hp'.
  destruct (match statement_type (head ++ from :: mid ++ kw :: post)%list with
            | Some ty => if String.eqb ty "SELECT"
                         then select_columns false
                                (head ++ from :: mid ++ kw :: post) []
                         else Ok []
            | None => Ok []
            end); [|discriminate Hp].
  destruct (match statement_type (head ++ from :: mid ++ kw :: post')%list with
            | Some ty => if String.eqb ty "SELECT"
                         then select_columns false
                                (head ++ from :: mid ++ kw :: post')%list []
                         else Ok []
            | None => Ok []
            end); [|discriminate Hp'].
  cbn [bind] in Hp, Hp'. injection Hp as <-. injection Hp' as <-.
  reflexivity.
Qed.

End TableLoop.

Lemma statement_without_from_is_executed_witness :
  snd (execute_query Scenario.env Scenario.employees_db "viewer" "SELECT 1")
  = ["SELECT 1"].
Proof.
  eapply (statement_without_from_is_executed
            Scenario.env Scenario.employees_db "viewer" "SELECT 1"
            {| user_id := 3; username := "viewer"; role := "viewer" |}
            Scenario.select_1 []
            {| q_type := Some "SELECT"; q_tables := []; q_columns := [] |}).
  - reflexivity.
  - intros token [<- | [<- | [<- | []]]]; reflexivity.
  - reflexivity.
  - reflexivity.
Defined.

(** [SELECT a FROM t JOIN u]: the joined table is not extracted *)
Lemma tables_end_at_next_keyword_witness :
  exists p p',
    parse_statement
      ([Token DML "SELECT"; Scenario.ws; Scenario.ident "a"; Scenario.ws]
         ++ Token Keyword "FROM"
         :: [Scenario.ws; Scenario.ident "t"; Scenario.ws]
         ++ Token Keyword "JOIN" :: [Scenario.ws; Scenario.ident "u"])%list
    = Ok p
    /\ parse_statement
         ([Token DML "SELECT"; Scenario.ws; Scenario.ident "a"; Scenario.ws]
            ++ Token Keyword "FROM"
            :: [Scenario.ws; Scenario.ident "t"; Scenario.ws]
            ++ Token Keyword "JOIN" :: [])%list
       = Ok p'
    /\ q_tables p = q_tables p'.
Proof.
  eexists. eexists. split; [reflexivity|]. split; [reflexivity|].
  apply (tables_end_at_next_keyword
           [Token DML "SELECT"; Scenario.ws; Scenario.ident "a"; Scenario.ws]
           (Token Keyword "FROM")
           [Scenario.ws; Scenario.ident "t"; Scenario.ws]
           (Token Keyword "JOIN")
           [Scenario.ws; Scenario.ident "u"] []);
    reflexivity.
Defined.

(** ** Shape of the result set *)

Section ResultShape.

Variable env : Collaborators.

Lemma dict_keys_set_new (d : row) (k : string) (v : Py.value) :
  ~ In k (dict_keys d) -> dict_keys (dict_set d k v) = (dict_keys d ++ [k])%list.
Proof.
  induction d as [|[k' v'] d IH]; intros Hnew; [reflexivity|].
  simpl in *. destruct (String.eqb k' k) eqn:E.
  - apply String.eqb_eq in E. subst. exfalso. apply Hnew. now left.
  - simpl. f_equal. apply IH. intros Hin. apply Hnew. now right.
Qed.

Lemma transform_row_keys (db : database) (name : string)
      (tables : list pyname) (r : row) (column_names : list string) :
  forall acc out,
    NoDup (dict_keys acc ++ column_names) ->
    transform_row env db name tables column_names r acc = Ok out ->
    dict_keys out = (dict_keys acc ++ column_names)%list.
Proof.
  induction column_names as [|c rest IH]; intros acc out Hnd Hrun;
    simpl in Hrun.
  - injection Hrun as <-. now rewrite app_nil_r.
  - destruct (dict_get r c) as [v|e]; [|discriminate Hrun].
    cbn [bind] in Hrun.
    assert (Hnew : ~ In c (dict_keys acc)).
    { intros Hin. apply NoDup_remove_2 in Hnd. apply Hnd.
      apply in_or_app. now left. }
    apply IH in Hrun.
    + rewrite Hrun, (dict_keys_set_new _ _ _ Hnew), <- app_assoc.
      reflexivity.
    + rewrite (dict_keys_set_new _ _ _ Hnew), <- app_assoc. exact Hnd.
Qed.

(** X16: an allowed query whose rows all carry the (distinct) columns of
    the first row returns the rows of the datastore in their order, one for
    one, each with exactly these columns in the order of the result set,
    and reports the same column list. *)
Theorem execute_query_preserves_order (db db' : database)
        (name sql : string) (parsed : parsed_query) (results : list row) :
  parse_query (sqlparse_parse env) sql = Ok parsed ->
  allowed (validate_permissions db name (q_tables parsed)
             (expand_wildcard db (q_tables parsed) (q_columns parsed)))
  = true ->
  datastore_execute env sql db = (Ok results, db') ->
  (forall r col, In r results -> In col (result_keys results) ->
                 exists v, dict_get r col = Ok v) ->
  NoDup (result_keys results) ->
  exists res,
    execute_query env db name sql = (res, db', [sql])
    /\ columns res = result_keys results
    /\ Forall2 (fun r r' =>
                  dict_keys r' = result_keys results
                  /\ transform_row env db' name (q_tables parsed)
                                   (result_keys results) r [] = Ok r')
               results (data res).
Proof.
  intros Hparse Hallowed Hrun Hkeys Hnd.
  unfold execute_query. rewrite Hparse. cbv beta iota zeta.
  rewrite Hallowed, Hrun. simpl negb. cbv iota. cbn [bind].
  destruct results as [|first rest].
  - simpl. eexists. split; [reflexivity|]. split; [reflexivity|].
    constructor.
  - unfold transform_results.
    set (results := first :: rest) in *.
    set (keys := result_keys results) in *.
    destruct (map_result_Forall2
                (fun r => transform_row env db' name (q_tables parsed)
                                        keys r []) results)
      as (rows' & Hrows & Hall).
    { intros r Hin. apply transform_row_total.
      intros col Hcol. now apply Hkeys. }
    rewrite Hrows. cbn [bind]. eexists. split; [reflexivity|].
    split; [reflexivity|]. simpl.
    eapply Forall2_impl; [|exact Hall].
    intros r r' Hr. split; [|exact Hr].
    apply (transform_row_keys db' name (q_tables parsed) r keys [] r');
      assumption.
Qed.

End ResultShape.

Lemma execute_query_preserves_order_witness :
  exists res,
    execute_query Scenario.env Scenario.employees_db "analyst"
                  "SELECT name, ssn FROM employees"
    = (res, Scenario.employees_db, ["SELECT name, ssn FROM employees"])
    /\ columns res = ["name"; "ssn"]
    /\ List.length (data res) = 2.
Proof.
  destruct (execute_query_preserves_order
              Scenario.env Scenario.employees_db Scenario.employees_db
              "analyst" "SELECT name, ssn FROM employees"
              {| q_type := Some "SELECT"; q_tables := [Some "employees"];
                 q_columns := [Some "name"; Some "ssn"] |}
              (Scenario.rows_of "SELECT name, ssn FROM employees"))
    as (res & Hres & Hcols & Hrows).
  - reflexivity.
  - reflexivity.
  - reflexivity.
  - intros r col [<- | [<- | []]] [<- | [<- | []]]; eexists; reflexivity.
  - repeat constructor; simpl; intuition discriminate.
  - exists res. split; [exact Hres|]. split; [exact Hcols|].
    symmetry. exact (Forall2_length Hrows).
Defined.

(** ** The audit trail of the [execute] command *)

Section AuditTrail.

Variable env : Collaborators.

(** X17: a statement whose extraction raises leaves no trace in the
    compliance log: the command echoes the failure, and neither the
    datastore nor the log sees the query. *)
Theorem cli_execute_parse_failure_is_not_logged (db : database)
        (store : audit_store) (name sql : string) (now : Z) (e : Py.exn) :
  parse_query (sqlparse_parse env) sql = Raise e ->
  cli_execute env db store name sql now
  = (cross_mark ++ " query failed: " ++ Py.exn_str e, db, store, []).
Proof.
  intros Hparse. unfold cli_execute, execute_query. now rewrite Hparse.
Qed.



End AuditTrail.

Lemma cli_execute_parse_failure_is_not_logged_witness :
  cli_execute Scenario.env Scenario.employees_db
              {| compliance_log := []; log_id_seq := 1 |}
              "analyst" EmptyString 7%Z
  = (cross_mark ++ " query failed: tuple index out of range",
     Scenario.employees_db, {| compliance_log := []; log_id_seq := 1 |}, []).
Proof.
  apply (cli_execute_parse_failure_is_not_logged
           Scenario.env Scenario.employees_db
           {| compliance_log := []; log_id_seq := 1 |}
           "analyst" EmptyString 7%Z
           (IndexError "tuple index out of range")).
  reflexivity.
Defined.


(** ** The table of [format_results] *)

Section FormatTable.

Lemma str_mul_char_length (c : ascii) (n : nat) :
  String.length (str_mul (String c EmptyString) n) = n.
Proof. induction n as [|n IH]; simpl; [reflexivity | now rewrite IH]. Qed.

Lemma ljust_length (s : string) (width : nat) :
  String.length s <= width -> String.length (ljust s width) = width.
Proof.
  intros Hle. unfold ljust. rewrite append_length, str_mul_char_length. lia.
Qed.

Lemma join_length (sep sep' : string) (l l' : list string) :
  String.length sep = String.length sep' ->
  map String.length l = map String.length l' ->
  String.length (join sep l) = String.length (join sep' l').
Proof.
  intros Hsep. revert l'. induction l as [|x l IH]; intros l' Hl.
  - destruct l'; [reflexivity | discriminate Hl].
  - destruct l' as [|x' l']; [discriminate Hl|].
    simpl in Hl. injection Hl as Hx Hl.
    specialize (IH l' Hl).
    destruct l as [|y l]; destruct l' as [|y' l']; try discriminate Hl.
    + exact Hx.
    + change (join sep (x :: y :: l)) with (x ++ sep ++ join sep (y :: l)).
      change (join sep' (x' :: y' :: l'))
        with (x' ++ sep' ++ join sep' (y' :: l')).
      rewrite !append_length, IH, Hx, Hsep. reflexivity.
Qed.

Lemma map_result_inv {A B} (f : A -> Py.result B) (l : list A) :
  forall l', map_result f l = Ok l' -> Forall2 (fun a b => f a = Ok b) l l'.
Proof.
  induction l as [|a l IH]; intros l' H; simpl in H.
  - injection H as <-. constructor.
  - destruct (f a) as [b|e] eqn:Hb; [|discriminate H]. cbn [bind] in H.
    destruct (map_result f l) as [bs|e]; [|discriminate H].
    cbn [bind] in H. injection H as <-. constructor; [exact Hb | now apply IH].
Qed.

Lemma widen_bounds (col : string) (data : list row) :
  forall width width',
    widen col data width = Ok width' ->
    width <= width'
    /\ forall r v, In r data -> dict_get r col = Ok v ->
                   String.length (Py.str v) <= width'.
Proof.
  induction data as [|r data IH]; intros width width' H; simpl in H.
  - injection H as <-. split; [lia | intros r v []].
  - destruct (dict_get r col) as [v|e] eqn:Hv; [|discriminate H].
    cbn [bind] in H. apply IH in H. destruct H as [Hle Hall].
    destruct (Nat.ltb_spec width (String.length (Py.str v))).
    + split; [lia|]. intros r' v' [<- | Hin] Hv'.
      * rewrite Hv in Hv'. injection Hv' as <-. exact Hle.
      * now apply (Hall r').
    + split; [lia|]. intros r' v' [<- | Hin] Hv'.
      * rewrite Hv in Hv'. injection Hv' as <-. lia.
      * now apply (Hall r').
Qed.

Lemma col_widths_width_of (columns : list string) (data : list row) :
  forall widths,
    col_widths columns data = Ok widths ->
    forall col, In col columns ->
                widen col data (String.length col) = Ok (width_of widths col).
Proof.
  unfold col_widths.
  induction columns as [|c columns IH]; intros widths H col Hin;
    [destruct Hin|].
  simpl in H.
  destruct (widen c data (String.length c)) as [w|e] eqn:Hw;
    [|discriminate H].
  cbn [bind] in H.
  destruct (map_result _ columns) as [rest|e]; [|discriminate H].
  cbn [bind] in H. injection H as <-. simpl.
  destruct (String.eqb c col) eqn:E.
  - apply String.eqb_eq in E. now subst.
  - destruct Hin as [-> | Hin]; [now rewrite String.eqb_refl in E|].
    now apply IH.
Qed.

(** X19: in the table [format_results] prints, the header, the separator
    and every row line have the same length: each cell is padded to the
    width of its column. *)
Theorem format_table_is_aligned (columns : list string) (data : list row)
        (header separator : string) (rows : list string) :
  format_table columns data = Ok (header, separator, rows) ->
  String.length separator = String.length header
  /\ List.length rows = List.length data
  /\ forall line, In line rows -> String.length line = String.length header.
Proof.
  unfold format_table. intros H.
  destruct (col_widths columns data) as [widths|e] eqn:Hw; [|discriminate H].
  cbn [bind] in H.
  destruct (map_result _ data) as [lines|e] eqn:Hlines; [|discriminate H].
  cbn [bind] in H. injection H as <- <- <-.
  pose proof (col_widths_width_of columns data widths Hw) as Hwidth.
  assert (Hheader : map String.length
                        (map (fun col => ljust col (width_of widths col))
                             columns)
                    = map (width_of widths) columns).
  { rewrite map_map. apply map_ext_in. intros col Hin.
    apply ljust_length.
    exact (proj1 (widen_bounds col data _ _ (Hwidth col Hin))). }
  split; [|split].
  - apply join_length; [reflexivity|].
    rewrite Hheader, map_map. apply map_ext. intros col.
    apply str_mul_char_length.
  - apply map_result_inv in Hlines. symmetry. exact (Forall2_length Hlines).
  - intros line Hin. apply map_result_inv in Hlines.
    assert (Hrow : exists r, In r data
                             /\ (cells <- map_result
                                   (fun col =>
                                      v <- dict_get r col ;;
                                      Ok (ljust (Py.str v)
                                                (width_of widths col)))
                                   columns ;;
                                 Ok (join " | " cells)) = Ok line).
    { clear -Hlines Hin. induction Hlines as [|r l data lines Hr _ IH];
        [destruct Hin|].
      destruct Hin as [<- | Hin].
      - exists r. split; [now left | exact Hr].
      - destruct (IH Hin) as (r' & Hin' & Hr'). exists r'.
        split; [now right | exact Hr']. }
    destruct Hrow as (r & Hr & Hline).
    destruct (map_result _ columns) as [cells|e] eqn:Hcells;
      [|discriminate Hline].
    cbn [bind] in Hline. injection Hline as <-.
    apply join_length; [reflexivity|]. rewrite Hheader.
    apply map_result_inv in Hcells.
    clear -Hcells Hwidth Hr.
    induction Hcells as [|col cell columns cells Hcell _ IH]; [reflexivity|].
    simpl. f_equal.
    + destruct (dict_get r col) as [v|e] eqn:Hv; [|discriminate Hcell].
      cbn [bind] in Hcell. injection Hcell as <-. apply ljust_length.
      exact (proj2 (widen_bounds col data _ _
                      (Hwidth col (or_introl eq_refl))) r v Hr Hv).
    + apply IH. intros c Hc. apply Hwidth. now right.
Qed.

End FormatTable.

Lemma format_table_is_aligned_witness :
  exists header separator rows,
    format_table ["name"; "ssn"]
                 [[("name", VStr "john smith"); ("ssn", VStr "123-45-6789")];
                  [("name", VStr "jane doe"); ("ssn", VNone)]]
    = Ok (header, separator, rows)
    /\ String.length separator = String.length header
    /\ forall line, In line rows -> String.length line = String.length header.
Proof.
  eexists. eexists. eexists. split; [vm_compute; reflexivity|].
  match goal with
  | |- String.length ?s = String.length ?h /\ (forall line, In line ?rs -> _) =>
    destruct (format_table_is_aligned
                ["name"; "ssn"]
                [[("name", VStr "john smith"); ("ssn", VStr "123-45-6789")];
                 [("name", VStr "jane doe"); ("ssn", VNone)]]
                h s rs eq_refl) as (Hsep & _ & Hrows)
  end.
  split; [exact Hsep | exact Hrows].
Defined.

(** ** Masking twice *)

Section MaskAgain.

Lemma str_drop_app_exact (a b : string) :
  str_drop (String.length a) (a ++ b) = b.
Proof. induction a as [|c a IH]; simpl; [now destruct b | exact IH]. Qed.

Lemma mask_value_of_str (v mask_type : Py.value) :
  v <> VNone -> mask_value v mask_type = mask_value (VStr (Py.str v)) mask_type.
Proof. intros Hv. destruct v; [contradiction | | |]; reflexivity. Qed.

Lemma mask_value_str_idempotent (text : string) (mask_type : Py.value) :
  mask_value (mask_value (VStr text) mask_type) mask_type
  = mask_value (VStr text) mask_type.
Proof.
  destruct (eq_str mask_type "full") eqn:Ef.
  - assert (Hin : mask_value (VStr text) mask_type
                  = VStr (str_mul "*" (String.length text)))
      by (unfold mask_value; now rewrite Ef).
    rewrite Hin. unfold mask_value. rewrite Ef. cbn [Py.str].
    now rewrite str_mul_star_length.
  - destruct (eq_str mask_type "partial") eqn:Ep.
    + destruct (Nat.leb (String.length text) 4) eqn:El.
      * assert (Hin : mask_value (VStr text) mask_type
                      = VStr (str_mul "*" (String.length text)))
          by (unfold mask_value; cbn [Py.str]; now rewrite Ef, Ep, El).
        rewrite Hin. unfold mask_value. rewrite Ef, Ep. cbn [Py.str].
        now rewrite str_mul_star_length, El.
      * assert (Hin : mask_value (VStr text) mask_type
                      = VStr (str_mul "*" (String.length text - 4)
                              ++ str_last 4 text))
          by (unfold mask_value; cbn [Py.str]; now rewrite Ef, Ep, El).
        apply Nat.leb_gt in El.
        assert (Hlast : String.length (str_last 4 text) = 4)
          by (unfold str_last; rewrite str_drop_length; lia).
        assert (Hlen : String.length
                         (str_mul "*" (String.length text - 4)
                          ++ str_last 4 text)
                       = String.length text)
          by (rewrite append_length, str_mul_star_length, Hlast; lia).
        rewrite Hin. unfold mask_value. rewrite Ef, Ep. cbn [Py.str].
        rewrite Hlen.
        assert (El' : Nat.leb (String.length text) 4 = false)
          by (apply Nat.leb_gt; exact El).
        rewrite El'. do 2 f_equal.
        unfold str_last at 1. rewrite Hlen.
        rewrite <- (str_mul_star_length (String.length text - 4)) at 1.
        apply str_drop_app_exact.
    + assert (Hin : mask_value (VStr text) mask_type = VStr text)
        by (unfold mask_value; cbn [Py.str]; now rewrite Ef, Ep).
      now rewrite Hin, Hin.
Qed.

(** X20: masking is idempotent in every mode: the mask of a masked value
    is that masked value, so a second pass neither reveals nor hides
    anything more. *)
Theorem mask_value_idempotent (v mask_type : Py.value) :
  mask_value (mask_value v mask_type) mask_type = mask_value v mask_type.
Proof.
  destruct v as [|s|z|b].
  - reflexivity.
  - apply mask_value_str_idempotent.
  - rewrite (mask_value_of_str (VInt z) mask_type) by discriminate.
    apply mask_value_str_idempotent.
  - rewrite (mask_value_of_str (VBool b) mask_type) by discriminate.
    apply mask_value_str_idempotent.
Qed.

End MaskAgain.

(** ** Column names of a loaded table *)

Section CleanName.

Import Loader.




(** two different names can be cleaned to the same one *)
Example clean_name_collision :
  clean_name "Unit Price" = "unit_price"
  /\ clean_name "unit-price" = "unit_price".
Proof. split; reflexivity. Qed.

End CleanName.

(** ** Admins and access levels *)

Section AdminAndLevels.

(** X22: for an admin nothing is ever denied, not even a table that does
    not exist, and every statement that is extracted without an exception
    is handed to the datastore. *)
Theorem admin_query_is_always_executed (env : Collaborators) (db : database)
        (name sql : string) (user : user_row) (parsed : parsed_query) :
  get_user db name = Some user ->
  role user = "admin" ->
  parse_query (sqlparse_parse env) sql = Ok parsed ->
  (forall tables columns,
      validate_permissions db name tables columns
      = {| allowed := true; reason := "admin has full access";
           v_denied_items := [] |})
  /\ snd (execute_query env db name sql) = [sql]
  /\ denied_items (fst (fst (execute_query env db name sql))) = None.
Proof.
  intros Hu Hr Hparse.
  assert (Hv : forall tables columns,
             validate_permissions db name tables columns
             = {| allowed := true; reason := "admin has full access";
                  v_denied_items := [] |}).
  { intros tables columns. unfold validate_permissions.
    now rewrite Hu, Hr. }
  split; [exact Hv|].
  unfold execute_query. rewrite Hparse. cbv beta iota zeta. rewrite Hv.
  simpl negb. cbv iota.
  destruct (datastore_execute env sql db) as [[results|e] db'];
    cbn [bind fst snd]; [|split; reflexivity].
  unfold transform_results. destruct results as [|first rest];
    [split; reflexivity|].
  destruct (map_result _ _); split; reflexivity.
Qed.

Lemma admin_query_is_always_executed_witness :
  snd (execute_query Scenario.env Scenario.employees_db "admin"
                     "SELECT name, ssn FROM employees")
  = ["SELECT name, ssn FROM employees"].
Proof.
  eapply (admin_query_is_always_executed
            Scenario.env Scenario.employees_db "admin"
            "SELECT name, ssn FROM employees"
            {| user_id := 1; username := "admin"; role := "admin" |}
            {| q_type := Some "SELECT"; q_tables := [Some "employees"];
               q_columns := [Some "name"; Some "ssn"] |});
    reflexivity.
Defined.

(** X23: the access level of a grant has no part in any check: two grant
    tables that differ in the levels (and times) of their records only
    answer every access check alike, so a ['read'] grant opens what a
    ['write'] grant opens. *)
Theorem access_level_is_never_checked (db db' : database)
        (level_of : access_row -> string) (time_of : access_row -> Z)
        (name : string) (table column : pyname) :
  system_users db' = system_users db ->
  access_control db'
  = map (fun r =>
           {| access_id := access_id r; ac_user_id := ac_user_id r;
              ac_table_name := ac_table_name r;
              ac_column_name := ac_column_name r;
              access_level := level_of r; granted_at := time_of r |})
        (access_control db) ->
  check_access db' name table column = check_access db name table column.
Proof.
  intros Husers Hrows. unfold check_access, get_user.
  rewrite Husers, Hrows.
  destruct (find _ (system_users db)) as [user|]; [|reflexivity].
  destruct (String.eqb (role user) "admin"); [reflexivity|].
  rewrite !existsb_map_same; reflexivity.
Qed.

Lemma access_level_is_never_checked_witness :
  exists db',
    grant_access Scenario.employees_db "analyst" "employees" None "write" 9%Z
    = Ok db'
    /\ check_access db' "analyst" (Some "employees") (Some "ssn")
       = check_access Scenario.employees_db "analyst" (Some "employees")
                      (Some "ssn").
Proof.
  eexists. split; [reflexivity|].
  apply (access_level_is_never_checked
           Scenario.employees_db _
           (fun r => if Z.eqb (access_id r) 1 then "write"
                     else access_level r)
           (fun r => if Z.eqb (access_id r) 1 then 9%Z else granted_at r));
    reflexivity.
Defined.

End AdminAndLevels.
